(** * HIL reservation prolog/epilog for the Slurm control daemon

    A shallow embedding of [prolog/hil_slurmctld_prolog.py] and the
    properties of its reservation logic.

    The hook is Python 2 code.  Its functions are embedded one by one, each
    as its body reads:

    - dictionaries returned by the Slurm helpers ([pdata_dict],
      [jobdata_dict]) are finite maps from strings to strings, and a
      subscript of a missing key raises [KeyError];
    - the prolog environment [env_dict] is built by a comprehension over a
      fixed key set, so it is a record with one field per key;
    - logging and the calls to the Slurm helpers (show, create, update and
      delete of reservations) are effects: every function runs in a state
      and exception monad over a [world] that holds the chronological list
      of events and the state of the external resource manager;
    - a name that is bound nowhere raises [NameError], a local that is read
      before any assignment raises [UnboundLocalError], an attribute that
      the object does not have raises [AttributeError];
    - a [datetime] is the number of seconds from 0001-01-01T00:00:00 and a
      [timedelta] a number of seconds.

    [_modify_hil_reservation] ends its [return] statement with a stray
    colon; every function is read as its own body says, that statement
    without the colon.

    The constants of [hil_slurm_constants] and [hil_slurm_settings], the
    library functions that interpret the time formats and the resource
    manager behind the helpers of [hil_slurm_helpers] are not part of the
    prolog: they are parameters of the development. *)

From Stdlib Require Import ZArith String Ascii List Bool Lia.
From stdpp Require Import base strings gmap.
Import ListNotations.

Local Open Scope Z_scope.

(** ** Python values and primitives *)

Module Py.

(** The exceptions the embedded code can raise. *)
Inductive exn : Type :=
| KeyError (key : string)
| NameError (name : string)
| UnboundLocalError (name : string)
| AttributeError (obj attr : string)
| ValueError
| OverflowError.

Inductive result (A : Type) : Type :=
| Ok (a : A)
| Raise (e : exn).
Arguments Ok {A} a.
Arguments Raise {A} e.

(** [s.startswith(p)] *)
Definition startswith (s p : string) : bool := String.prefix p s.

(** [sub in s] for two strings *)
Fixpoint contains (sub s : string) : bool :=
  String.prefix sub s ||
  match s with
  | EmptyString => false
  | String _ s' => contains sub s'
  end.

(** [s.split(sep)] for a one-character separator *)
Fixpoint split (sep : ascii) (s : string) : list string :=
  match s with
  | EmptyString => [EmptyString]
  | String a s' =>
      if Ascii.eqb a sep then EmptyString :: split sep s'
      else match split sep s' with
           | h :: t => String a h :: t
           | [] => [String a EmptyString]
           end
  end.

(** Truth value of a string: the empty string is false. *)
Definition truthy (s : string) : bool :=
  match s with EmptyString => false | _ => true end.

(** [x in l] for a list of strings *)
Definition in_list (x : string) (l : list string) : bool :=
  existsb (String.eqb x) l.

End Py.
Export Py.

(** ** [datetime] and [timedelta] at the resolution of a second *)

Module Datetime.

Definition datetime := Z.
Definition timedelta := Z.

(** Days from 0001-01-01 to 9999-12-31, both included. *)
Definition MAXORDINAL : Z := 3652059.
Definition SECONDS_PER_DAY : Z := 86400.

Definition in_range (t : datetime) : bool :=
  (0 <=? t) && (t <? MAXORDINAL * SECONDS_PER_DAY).

(** The day count of a timedelta is limited to nine digits. *)
Definition delta_in_range (n : Z) : bool :=
  (-999999999 <=? n / SECONDS_PER_DAY) && (n / SECONDS_PER_DAY <=? 999999999).

(** [timedelta(seconds=n)] *)
Definition timedelta_seconds (n : Z) : result timedelta :=
  if delta_in_range n then Ok n else Raise OverflowError.

(** [timedelta(days=n)] *)
Definition timedelta_days (n : Z) : result timedelta :=
  if (-999999999 <=? n) && (n <=? 999999999)
  then Ok (n * SECONDS_PER_DAY) else Raise OverflowError.

(** [timedelta(hours=h, minutes=m, seconds=s)] for the fields of a
    [datetime], which are bounded. *)
Definition timedelta_hms (h m s : Z) : timedelta := h * 3600 + m * 60 + s.

(** [dt + td] *)
Definition add (dt : datetime) (td : timedelta) : result datetime :=
  if in_range (dt + td) then Ok (dt + td) else Raise OverflowError.

Definition hour (dt : datetime) : Z := (dt mod SECONDS_PER_DAY) / 3600.
Definition minute (dt : datetime) : Z := (dt mod 3600) / 60.
Definition second (dt : datetime) : Z := dt mod 60.

End Datetime.
Export Datetime.

(** ** Data model *)

(** The dictionary [_get_prolog_environment] builds: one entry per key of
    its [env_map], read from the [SLURM_JOB_*] variables, which the
    scheduler sets: every value is a string. *)
Record environment : Type := {
  jobname : string;
  partition : string;
  username : string;
  job_id : string;
  job_uid : string;
  job_account : string;
  nodelist : string
}.

(** A record of [scontrol show]: attribute names to their text. *)
Abbreviation dict := (gmap string string).

(** The names [hil_slurm_constants] exports to the prolog. *)
Record constants : Type := {
  SHOW_OBJ_TIME_FMT : string;
  RES_CREATE_TIME_FMT : string;
  SHOW_PARTITION_MAXTIME_HMS_FMT : string;
  RES_CREATE_HIL_FEATURES : string;
  HIL_RESERVE : string;
  HIL_RELEASE : string;
  HIL_RESERVATION_COMMANDS : list string;
  HIL_RESERVATION_PREFIX : string;
  RES_CREATE_FLAGS : string;
  RES_RELEASE_FLAGS : string
}.

(** The names [hil_slurm_settings] exports to the prolog that the
    reservation logic reads (durations in seconds). *)
Record settings : Type := {
  HIL_PARTITION_PREFIX : string;
  RES_CHECK_DEFAULT_PARTITION : bool;
  RES_CHECK_EXCLUSIVE_PARTITION : bool;
  RES_CHECK_SHARED_PARTITION : bool;
  RES_CHECK_PARTITION_STATE : bool;
  HIL_RESERVATION_DEFAULT_DURATION : Z;
  HIL_RESERVATION_GRACE_PERIOD : Z
}.

(** The library functions whose result depends on a format or on the
    syntax of numerals: [datetime.strptime(text, format)],
    [dt.strftime(format)] and [int(text)].  [None] stands for the
    [ValueError] the function raises. *)
Record library : Type := {
  strptime : string -> string -> option datetime;
  strftime : datetime -> string -> option string;
  int : string -> option Z
}.

(** The helpers of [hil_slurm_helpers] that reach the resource manager,
    with the arguments the prolog passes. *)
Inductive call : Type :=
| exec_scontrol_show_cmd (entity name : string)
| create_slurm_reservation (resname user t_start_s t_end_s : string)
    (nodes : option string) (flags features : string) (debug : bool)
| update_slurm_reservation (resname : string) (debug : bool)
    (kwargs : list (string * string))
| delete_slurm_reservation (resname : string) (debug : bool).

(** What a helper returns: the parsed records (show only) and the text
    of the two output streams. *)
Record reply : Type := {
  records : list dict;
  stdout : string;
  stderr : string
}.

(** The resource manager: any state, any answers. *)
Record manager : Type := {
  mgr_state : Type;
  respond : call -> mgr_state -> reply * mgr_state
}.

Inductive level : Type := DEBUG | INFO | ERROR.

(** The argument of a logging call: text, or a [timedelta] object. *)
Inductive message : Type :=
| Text (s : string)
| Delta (d : timedelta).

Inductive event : Type :=
| Log (lvl : level) (msg : message)
| Called (c : call) (r : reply).

(** Names bound at module level: the imports and the functions.  A
    global name is looked up here and then among the builtins, which
    hold neither [resname] nor [re]. *)
Definition module_globals : list string :=
  [ "argparse"; "hostlist"; "inspect"; "logging"; "os"; "sys";
    "datetime"; "timedelta"; "libdir";
    "get_partition_data"; "get_job_data"; "exec_scontrol_cmd";
    "exec_scontrol_show_cmd"; "create_slurm_reservation";
    "update_slurm_reservation"; "delete_slurm_reservation";
    "SHOW_OBJ_TIME_FMT"; "RES_CREATE_TIME_FMT";
    "SHOW_PARTITION_MAXTIME_HMS_FMT"; "RES_CREATE_HIL_FEATURES";
    "HIL_RESERVE"; "HIL_RELEASE"; "HIL_RESERVATION_COMMANDS";
    "HIL_RESERVATION_PREFIX"; "RES_CREATE_FLAGS"; "RES_RELEASE_FLAGS";
    "log_init"; "log_info"; "log_debug"; "log_error";
    "HIL_PARTITION_PREFIX"; "RES_CHECK_DEFAULT_PARTITION";
    "RES_CHECK_EXCLUSIVE_PARTITION"; "RES_CHECK_SHARED_PARTITION";
    "RES_CHECK_PARTITION_STATE"; "HIL_RESERVATION_DEFAULT_DURATION";
    "HIL_RESERVATION_GRACE_PERIOD"; "HIL_SLURMCTLD_PROLOG_LOGFILE";
    "USER_HIL_SUBDIR"; "USER_HIL_LOGFILE";
    "_get_prolog_environment"; "_get_user_hil_subdir";
    "_check_hil_partition"; "_check_hil_command";
    "_get_hil_reservation_times"; "_create_hil_reservation";
    "_modify_hil_reservation"; "_delete_hil_reservation";
    "_get_hil_reservation_name"; "_log_hil_reservation";
    "_hil_reserve_cmd"; "_hil_release_cmd"; "process_args"; "main" ].

(** ** The monad of the hook: events, manager state and exceptions *)

Section Monad.

Context (M : manager).

Record world : Type := {
  events : list event;
  mgr : mgr_state M
}.

Definition prog (A : Type) : Type := world -> result A * world.

Definition ret {A} (a : A) : prog A := fun w => (Ok a, w).

Definition raise {A} (e : exn) : prog A := fun w => (Raise e, w).

Definition bind {A B} (m : prog A) (k : A -> prog B) : prog B :=
  fun w =>
    match m w with
    | (Ok a, w') => k a w'
    | (Raise e, w') => (Raise e, w')
    end.

Definition lift {A} (r : result A) : prog A := fun w => (r, w).

Definition emit (e : event) (w : world) : world :=
  {| events := events w ++ [e]; mgr := mgr w |}.

Definition log (lvl : level) (msg : message) : prog unit :=
  fun w => (Ok tt, emit (Log lvl msg) w).

Definition log_debug (s : string) : prog unit := log DEBUG (Text s).
Definition log_info (s : string) : prog unit := log INFO (Text s).
Definition log_error (s : string) : prog unit := log ERROR (Text s).

(** A call of a helper: the manager answers and moves on. *)
Definition helper (c : call) : prog reply :=
  fun w =>
    let (r, s) := respond M c (mgr w) in
    (Ok r, {| events := events w ++ [Called c r]; mgr := s |}).

(** [d[key]] *)
Definition subscript (d : dict) (key : string) : prog string :=
  match d !! key with
  | Some v => ret v
  | None => raise (KeyError key)
  end.

(** A library call that fails with [ValueError]. *)
Definition or_ValueError {A} (o : option A) : prog A :=
  match o with
  | Some v => ret v
  | None => raise ValueError
  end.

(** A read of a global name: [value] is what the name holds when the
    module binds it; a name outside [module_globals] raises. *)
Definition global {A} (name : string) (value : A) : prog A :=
  if in_list name module_globals then ret value else raise (NameError name).

(** A read of a local variable; [None] is a local not yet assigned. *)
Definition local {A} (name : string) (value : option A) : prog A :=
  match value with
  | Some v => ret v
  | None => raise (UnboundLocalError name)
  end.

End Monad.

Arguments ret {M A} a.
Arguments raise {M A} e.
Arguments bind {M A B} m k.
Arguments lift {M A} r.
Arguments emit {M} e w.
Arguments log {M} lvl msg.
Arguments log_debug {M} s.
Arguments log_info {M} s.
Arguments log_error {M} s.
Arguments helper {M} c.
Arguments subscript {M} d key.
Arguments or_ValueError {M A} o.
Arguments global {M A} name value.
Arguments local {M A} name value.
Arguments events {M} w.
Arguments mgr {M} w.

Declare Scope prog_scope.
Delimit Scope prog_scope with prog.
Notation "x <- c1 ;; c2" := (bind c1 (fun x => c2))
  (at level 100, c1 at next level, right associativity) : prog_scope.
Notation "c1 ;; c2" := (bind c1 (fun _ => c2))
  (at level 100, right associativity) : prog_scope.
Local Open Scope prog_scope.

(** ** The functions of the prolog *)

Section Prolog.

Context (C : constants) (S : settings) (L : library) (M : manager).

Local Abbreviation prog := (prog M).

Definition py_strptime (text format : string) : prog datetime :=
  or_ValueError (strptime L text format).

Definition py_strftime (dt : datetime) (format : string) : prog string :=
  or_ValueError (strftime L dt format).

Definition py_int (text : string) : prog Z :=
  or_ValueError (int L text).

(** [_check_hil_partition]: is the partition properly named and
    configured for HIL. *)
Definition _check_hil_partition (env_dict : environment) (pdata_dict : dict)
  : prog bool :=
  let status := true in
  pname <- subscript pdata_dict "PartitionName" ;;
  status <-
    (if negb (startswith pname (HIL_PARTITION_PREFIX S)) then
       log_info ("Partition name `" +:+ pname +:+ "` does not match `"
                 +:+ HIL_PARTITION_PREFIX S +:+ "*`") ;;
       ret false
     else ret status) ;;
  status <-
    (if RES_CHECK_PARTITION_STATE S then
       state <- subscript pdata_dict "State" ;;
       if negb (String.eqb state "UP") then
         state <- subscript pdata_dict "State" ;;
         log_info ("Partition `" +:+ pname +:+ "` state (`" +:+ state
                   +:+ "`) is not UP") ;;
         ret false
       else ret status
     else ret status) ;;
  status <-
    (if RES_CHECK_DEFAULT_PARTITION S then
       default <- subscript pdata_dict "Default" ;;
       if String.eqb default "YES" then
         log_info ("Partition `" +:+ pname
                   +:+ "` is the default partition, cannot be used for HIL") ;;
         ret false
       else ret status
     else ret status) ;;
  status <-
    (if RES_CHECK_SHARED_PARTITION S then
       shared <- subscript pdata_dict "Shared" ;;
       if negb (String.eqb shared "NO") then
         log_info ("Partition `" +:+ pname
                   +:+ "` is shared, cannot be used for HIL") ;;
         ret false
       else ret status
     else ret status) ;;
  status <-
    (if RES_CHECK_EXCLUSIVE_PARTITION S then
       exclusive <- subscript pdata_dict "ExclusiveUser" ;;
       if negb (String.eqb exclusive "YES") then
         log_info ("Partition `" +:+ pname +:+ "` not exclusive to `"
                   +:+ username env_dict +:+ "`, cannot be used for HIL") ;;
         ret false
       else ret status
     else ret status) ;;
  ret status.

(** [_check_hil_command]: the HIL command named by the job, if any. *)
Definition _check_hil_command (env_dict : environment) : prog (option string) :=
  let jobname := jobname env_dict in
  if in_list jobname (HIL_RESERVATION_COMMANDS C) then ret (Some jobname)
  else
    log_debug ("Jobname `" +:+ jobname
               +:+ "` is not a HIL reservation command, nothing to do.") ;;
    ret None.

(** [_get_hil_reservation_times]: start and end of the reservation.
    The local [t_end_dt] is assigned on some paths only; each path
    yields its binding, [None] when it leaves the local unassigned. *)
Definition _get_hil_reservation_times
  (env_dict : environment) (pdata_dict jobdata_dict : dict)
  : prog (string * string) :=
  t_job_start_s <- subscript jobdata_dict "StartTime" ;;
  t_job_end_s <- subscript jobdata_dict "EndTime" ;;
  t_start_dt <- py_strptime t_job_start_s (SHOW_OBJ_TIME_FMT C) ;;
  t_end_dt <-
    (if negb (contains "Unknown" t_job_end_s) then
       log_debug "Using job end time for reservation" ;;
       t_end_dt <- py_strptime t_job_end_s (SHOW_OBJ_TIME_FMT C) ;;
       grace <- lift (timedelta_seconds (HIL_RESERVATION_GRACE_PERIOD S)) ;;
       t_end_dt <- lift (add t_end_dt grace) ;;
       ret (Some t_end_dt)
     else
       time_limit <- subscript jobdata_dict "TimeLimit" ;;
       if contains "UNLIMITED" time_limit then
         p_max_time_s <- subscript pdata_dict "MaxTime" ;;
         log_debug ("Partition MaxTime is " +:+ p_max_time_s) ;;
         if contains "UNLIMITED" p_max_time_s then
           log_debug "No job or partition time limit, using HIL default reservation duration" ;;
           duration <- lift (timedelta_seconds (HIL_RESERVATION_DEFAULT_DURATION S)) ;;
           t_end_dt <- lift (add t_start_dt duration) ;;
           ret (Some t_end_dt)
         else
           log_debug "Using partition time limit to calculate reservation end time" ;;
           match split "-" p_max_time_s with
           | [hms] =>
               p_max_hms_dt <- py_strptime hms (SHOW_PARTITION_MAXTIME_HMS_FMT C) ;;
               let p_max_timedelta :=
                 timedelta_hms (hour p_max_hms_dt) (minute p_max_hms_dt)
                               (second p_max_hms_dt) in
               ret None
           | [days; hms] =>
               (* [datetime] names the class here, not the module *)
               p_max_days_timedelta <-
                 ((raise (AttributeError "datetime" "timedelta") : prog unit) ;;
                  n <- py_int days ;;
                  lift (timedelta_days n)) ;;
               p_max_hms_dt <- py_strptime hms (SHOW_PARTITION_MAXTIME_HMS_FMT C) ;;
               let p_max_hms_timedelta :=
                 timedelta_hms (hour p_max_hms_dt) (minute p_max_hms_dt)
                               (second p_max_hms_dt) in
               let p_max_timedelta := (p_max_days_timedelta + p_max_hms_timedelta)%Z in
               log DEBUG (Delta p_max_timedelta) ;;
               t_end_dt <- lift (add t_start_dt p_max_timedelta) ;;
               ret (Some t_end_dt)
           | _ =>
               log_error ("Cannot parse partition MaxTime (`" +:+ p_max_time_s
                          +:+ "`)") ;;
               ret None
           end
       else
         log_debug "Job has a time limit! Unsupported!" ;;
         ret None) ;;
  t_start_s <- py_strftime t_start_dt (RES_CREATE_TIME_FMT C) ;;
  t_end_dt <- local "t_end_dt" t_end_dt ;;
  t_end_s <- py_strftime t_end_dt (RES_CREATE_TIME_FMT C) ;;
  ret (t_start_s, t_end_s).

(** [_get_hil_reservation_name] *)
Definition _get_hil_reservation_name
  (name_token : string) (env_dict : environment) (t_start_s : string) : string :=
  let resname := HIL_RESERVATION_PREFIX C +:+ "_" +:+ name_token +:+ "_" in
  let resname := resname +:+ (username env_dict +:+ "_") in
  let resname := resname +:+ (job_uid env_dict +:+ "_" +:+ t_start_s) in
  resname.

(** [_create_hil_reservation] *)
Definition _create_hil_reservation
  (name_token : string) (env_dict : environment) (pdata_dict jobdata_dict : dict)
  : prog (string * string) :=
  times <- _get_hil_reservation_times env_dict pdata_dict jobdata_dict ;;
  let '(t_start_s, t_end_s) := times in
  let resname := _get_hil_reservation_name name_token env_dict t_start_s in
  shown <- helper (exec_scontrol_show_cmd "reservation" resname) ;;
  let stderr_data := stderr shown in
  if truthy stderr_data && negb (contains "not found" stderr_data) then
    log_info ("HIL reservation `" +:+ resname +:+ "` already exists") ;;
    ret (resname, stderr_data)
  else
    log_info ("Creating HIL reservation `" +:+ resname +:+ "`, ending "
              +:+ t_end_s) ;;
    created <- helper (create_slurm_reservation resname (username env_dict)
                         t_start_s t_end_s None (RES_CREATE_FLAGS C)
                         (RES_CREATE_HIL_FEATURES C) false) ;;
    ret (resname, stderr created).


(** [_delete_hil_reservation]: delete after validating the HIL name
    prefix and the owner name.  The first component of the result is
    [None] when the function refuses. *)
Definition _delete_hil_reservation
  (env_dict : environment) (pdata_dict jobdata_dict : dict) (resname : string)
  : prog (option string * string) :=
  log_info ("Deleting HIL reservation `" +:+ resname +:+ "`") ;;
  if negb (startswith resname (HIL_RESERVATION_PREFIX C +:+ username env_dict)) then
    log_info ("Error in HIL reservation name (`" +:+ resname +:+ "`)") ;;
    ret (None, "hil_release: error: Invalid reservation name")
  else
    deleted <- helper (delete_slurm_reservation resname false) ;;
    ret (Some (stdout deleted), stderr deleted).

(** [_log_hil_reservation]: its body is [pass]. *)
Definition _log_hil_reservation
  (resname action : string) (env_dict : environment) : prog unit :=
  ret tt.

(** [_hil_reserve_cmd]: create the reserve and the release
    reservations if they do not already exist. *)
Definition _hil_reserve_cmd
  (env_dict : environment) (pdata_dict jobdata_dict : dict) : prog unit :=
  created <- _create_hil_reservation (HIL_RESERVE C) env_dict pdata_dict jobdata_dict ;;
  let '(resname, stderr_data) := created in
  _log_hil_reservation resname "Created" env_dict ;;
  created <- _create_hil_reservation (HIL_RELEASE C) env_dict pdata_dict jobdata_dict ;;
  let '(resname, stderr_data) := created in
  _log_hil_reservation resname "Created" env_dict.

(** [_hil_release_cmd]: delete the reservation in which the release
    job was run, once validated.  The local holding the name is
    [reserve_resname]; the body also reads [resname] and [re], which
    no statement binds. *)
Definition _hil_release_cmd
  (env_dict : environment) (pdata_dict jobdata_dict : dict) : prog unit :=
  reserve_resname <- subscript jobdata_dict "Reservation" ;;
  if truthy reserve_resname then
    if negb (contains (username env_dict) reserve_resname) then
      resname <- global "resname" EmptyString ;;
      log_error ("Reservation `" +:+ resname +:+ "` not owned by user `"
                 +:+ username env_dict +:+ "`")
    else if negb (contains (HIL_RESERVE C) reserve_resname) then
      resname <- global "resname" EmptyString ;;
      log_error ("Reservation `" +:+ resname
                 +:+ "` is not a HIL reserve reservation")
    else
      resname <- global "resname" EmptyString ;;
      deleted <- _delete_hil_reservation env_dict pdata_dict jobdata_dict resname ;;
      let '(stdout_data, stderr_data) := deleted in
      (if (String.length stderr_data =? 0)%nat then
         resname <- global "resname" EmptyString ;;
         _log_hil_reservation resname "Released" env_dict
       else ret tt) ;;
      (* [re.sub()] *)
      global "re" tt
  else
    job_name <- subscript jobdata_dict "JobName" ;;
    log_error ("No reservation name specified to `" +:+ job_name
               +:+ "` command").

End Prolog.

(** ** The environment, the user directory and the entry point *)

(** [env_map] of [_get_prolog_environment]: key of the dictionary and
    name of the variable it is read from. *)
Definition env_map : list (string * string) :=
  [ ("jobname", "SLURM_JOB_NAME");
    ("partition", "SLURM_JOB_PARTITION");
    ("username", "SLURM_JOB_USER");
    ("job_id", "SLURM_JOB_ID");
    ("job_uid", "SLURM_JOB_UID");
    ("job_account", "SLURM_JOB_ACCOUNT");
    ("nodelist", "SLURM_JOB_NODELIST") ].

(** [_get_prolog_environment], on the process environment [environ]:
    [os.environ.get] gives [None] for a variable that is not set. *)
Definition _get_prolog_environment (environ : gmap string string)
  : gmap string (option string) :=
  list_to_map (map (fun entry => (fst entry, environ !! snd entry)) env_map).

(** The dictionary of an [environment], every variable being set. *)
Definition as_dict (env_dict : environment) : gmap string (option string) :=
  list_to_map
    [ ("jobname", Some (jobname env_dict));
      ("partition", Some (partition env_dict));
      ("username", Some (username env_dict));
      ("job_id", Some (job_id env_dict));
      ("job_uid", Some (job_uid env_dict));
      ("job_account", Some (job_account env_dict));
      ("nodelist", Some (nodelist env_dict)) ].

(** The process environment in which the variables hold the fields of
    an [environment] (and nothing else is set). *)
Definition environ_of (env_dict : environment) : gmap string string :=
  list_to_map
    [ ("SLURM_JOB_NAME", jobname env_dict);
      ("SLURM_JOB_PARTITION", partition env_dict);
      ("SLURM_JOB_USER", username env_dict);
      ("SLURM_JOB_ID", job_id env_dict);
      ("SLURM_JOB_UID", job_uid env_dict);
      ("SLURM_JOB_ACCOUNT", job_account env_dict);
      ("SLURM_JOB_NODELIST", nodelist env_dict) ].

(** [os.path.join(a, b)] of [posixpath]. *)
Definition path_join (a b : string) : string :=
  if startswith b "/" then b
  else if String.eqb a "" || startswith (String.rev a) "/" then a +:+ b
  else a +:+ "/" +:+ b.

(** [_get_user_hil_subdir].  [expanduser] is [os.path.expanduser],
    which reads the password database; [USER_HIL_SUBDIR] is a name of
    [hil_slurm_settings]. *)
Definition _get_user_hil_subdir (expanduser : string -> string)
  (USER_HIL_SUBDIR : string) (env_dict : environment) : string :=
  let home := expanduser ("~" +:+ username env_dict) in
  path_join home USER_HIL_SUBDIR.

(** What [process_args] returns: the two flags of the command line. *)
Record arguments : Type := {
  hil_prolog : bool;
  hil_epilog : bool
}.

(** The helpers [get_partition_data] and [get_job_data]: what the
    resource manager, in a given state, shows for a partition and for a
    job.  They read and change nothing. *)
Record fetchers (M : manager) : Type := {
  get_partition_data : string -> mgr_state M -> list dict;
  get_job_data : string -> mgr_state M -> list dict
}.
Arguments get_partition_data {M} f name state.
Arguments get_job_data {M} f name state.

(** The effects of [main]: the events of the functions it calls, and
    its own calls of the logging module and of the two helpers. *)
Inductive main_event : Type :=
| In_prolog (e : event)
| Log_init (name logfile : string) (lvl : level)
| Log_separator (lvl : level) (text : string)
| Log_object (lvl : level) (text : string) (obj : dict)
| Got_partition_data (name : string) (found : list dict)
| Got_job_data (name : string) (found : list dict).

(** [main] can also end with the [IndexError] of a subscript [[0]]. *)
Inductive main_exn : Type :=
| Raised (e : exn)
| IndexError.

Inductive outcome (A : Type) : Type :=
| Returned (a : A)
| Uncaught (e : main_exn).
Arguments Returned {A} a.
Arguments Uncaught {A} e.

Section Entry.

Context (C : constants) (S : settings) (L : library) (M : manager) (F : fetchers M).

(** [HIL_SLURMCTLD_PROLOG_LOGFILE] of [hil_slurm_settings]. *)
Context (HIL_SLURMCTLD_PROLOG_LOGFILE : string).

Record main_world : Type := {
  trace : list main_event;
  manager_state : mgr_state M
}.

Definition top (A : Type) : Type := main_world -> outcome A * main_world.

Definition top_ret {A} (a : A) : top A := fun mw => (Returned a, mw).

Definition top_bind {A B} (m : top A) (k : A -> top B) : top B :=
  fun mw =>
    match m mw with
    | (Returned a, mw') => k a mw'
    | (Uncaught e, mw') => (Uncaught e, mw')
    end.

Definition record (e : main_event) : top unit :=
  fun mw => (Returned tt, {| trace := trace mw ++ [e]; manager_state := manager_state mw |}).

(** A call of a function of the prolog: its events join the trace, its
    exception, if any, is not caught. *)
Definition call_prolog {A} (m : prog M A) : top A :=
  fun mw =>
    let (r, w) := m (Build_world M [] (manager_state mw)) in
    (match r with Ok a => Returned a | Raise e => Uncaught (Raised e) end,
     {| trace := trace mw ++ map In_prolog (events w); manager_state := mgr w |}).

(** [l[0]] *)
Definition first_item {A} (l : list A) : top A :=
  fun mw =>
    match l with
    | x :: _ => (Returned x, mw)
    | [] => (Uncaught IndexError, mw)
    end.

Definition fetch_partition (name : string) : top (list dict) :=
  fun mw =>
    let found := get_partition_data F name (manager_state mw) in
    (Returned found,
     {| trace := trace mw ++ [Got_partition_data name found];
        manager_state := manager_state mw |}).

Definition fetch_job (name : string) : top (list dict) :=
  fun mw =>
    let found := get_job_data F name (manager_state mw) in
    (Returned found,
     {| trace := trace mw ++ [Got_job_data name found];
        manager_state := manager_state mw |}).

(** Truth value of a dictionary: the empty one is false. *)
Definition nonempty {V} (d : gmap string V) : bool := negb (Nat.eqb (size d) 0).

Declare Scope top_scope.
Notation "x <- c1 ;; c2" := (top_bind c1 (fun x => c2))
  (at level 100, c1 at next level, right associativity) : top_scope.
Notation "c1 ;; c2" := (top_bind c1 (fun _ => c2))
  (at level 100, right associativity) : top_scope.
Local Open Scope top_scope.

(** [main], from the collection of the data on: the part both flags
    share. *)
Definition main_process (args : arguments) (env_dict : environment) : top unit :=
  pdata <- fetch_partition (partition env_dict) ;;
  pdata_dict <- first_item pdata ;;
  jobdata <- fetch_job (job_id env_dict) ;;
  jobdata_dict <- first_item jobdata ;;
  if negb (nonempty pdata_dict) || negb (nonempty jobdata_dict)
     || negb (nonempty (as_dict env_dict)) then
    call_prolog (log_debug "One of pdata_dict, jobdata_dict, or env_dict is empty") ;;
    record (Log_object DEBUG "Job data" jobdata_dict) ;;
    record (Log_object DEBUG "P   data" pdata_dict)
  else
    valid <- call_prolog (_check_hil_partition S M env_dict pdata_dict) ;;
    if negb valid then top_ret tt
    else
      hil_cmd <- call_prolog (_check_hil_command C M env_dict) ;;
      if negb (match hil_cmd with Some cmd => truthy cmd | None => false end)
      then top_ret tt
      else if hil_prolog args then
        if match hil_cmd with Some cmd => String.eqb cmd "hil_reserve" | None => false end
        then
          record (Log_separator INFO "HIL Slurmctld Prolog") ;;
          call_prolog (log_debug "Processing reservation request") ;;
          call_prolog (_hil_reserve_cmd C S L M env_dict pdata_dict jobdata_dict)
        else top_ret tt
      else if hil_epilog args then
        if match hil_cmd with Some cmd => String.eqb cmd "hil_release" | None => false end
        then
          call_prolog (log_debug "Processing reservation release request") ;;
          call_prolog (_hil_release_cmd C M env_dict pdata_dict jobdata_dict)
        else top_ret tt
      else top_ret tt.

(** [main].  [args] is what [process_args] returns; [env_dict] is the
    dictionary [_get_prolog_environment] returns, every variable being
    set by the scheduler. *)
Definition main (args : arguments) (env_dict : environment) : top unit :=
  record (Log_init "hil_slurmctld.prolog" HIL_SLURMCTLD_PROLOG_LOGFILE DEBUG) ;;
  if hil_prolog args then main_process args env_dict
  else if hil_epilog args then main_process args env_dict
  else record (Log_separator DEBUG "Must specify one of --hil_prolog or --hil_epilog").

End Entry.

Arguments trace {M} m.
Arguments manager_state {M} m.

(** ** A concrete configuration

    The modules of constants and settings, the time formats and the
    resource manager are outside the prolog.  This instance fixes them
    so that the functions can be run. *)

Module Sample.

(** *** The proleptic Gregorian calendar *)

Definition is_leap (y : Z) : bool :=
  (y mod 4 =? 0) && (negb (y mod 100 =? 0) || (y mod 400 =? 0)).

Definition days_before_year (y : Z) : Z :=
  let y := y - 1 in y * 365 + y / 4 - y / 100 + y / 400.

Definition days_in_month (y m : Z) : Z :=
  if m =? 2 then (if is_leap y then 29 else 28)
  else if (m =? 4) || (m =? 6) || (m =? 9) || (m =? 11) then 30
  else 31.

(** Days of the year [y] in its first [n] months. *)
Fixpoint days_of_months (y : Z) (n : nat) : Z :=
  match n with
  | O => 0
  | Datatypes.S n' => days_of_months y n' + days_in_month y (Z.of_nat n)
  end.

(** Days of the year [y] before the first of month [m]. *)
Definition days_before_month (y m : Z) : Z :=
  days_of_months y (Z.to_nat (m - 1)).

(** Ordinal of a date, 0001-01-01 being day 1. *)
Definition ymd2ord (y m d : Z) : Z :=
  days_before_year y + days_before_month y m + d.

Definition of_fields (y m d hh mm ss : Z) : datetime :=
  (ymd2ord y m d - 1) * SECONDS_PER_DAY + hh * 3600 + mm * 60 + ss.

(** The year of an ordinal: the candidate from the mean year length,
    moved by one where needed. *)
Definition year_of_ord (n : Z) : Z :=
  let y := (n - 1) * 400 / 146097 + 1 in
  if n <=? days_before_year y then y - 1
  else if days_before_year (y + 1) <? n then y + 1
  else y.

Fixpoint month_of_day (y : Z) (fuel : nat) (m n : Z) : Z * Z :=
  match fuel with
  | O => (m, n)
  | Datatypes.S fuel' =>
      if n <=? days_in_month y m then (m, n)
      else month_of_day y fuel' (m + 1) (n - days_in_month y m)
  end.

Definition ord2ymd (n : Z) : Z * Z * Z :=
  let y := year_of_ord n in
  let '(m, d) := month_of_day y 11 1 (n - days_before_year y) in
  (y, m, d).

(** *** Numerals of fixed width *)

Definition digit (a : ascii) : option Z :=
  let n := Z.of_nat (nat_of_ascii a) in
  if (48 <=? n) && (n <=? 57) then Some (n - 48) else None.

Fixpoint number_from (acc : Z) (s : string) : option Z :=
  match s with
  | EmptyString => Some acc
  | String a s' =>
      match digit a with
      | Some d => number_from (acc * 10 + d) s'
      | None => None
      end
  end.

Definition number (s : string) : option Z :=
  match s with
  | EmptyString => None
  | _ => number_from 0 s
  end.

Definition field (from width : nat) (s : string) : option Z :=
  number (String.substring from width s).

Definition digit_char (d : Z) : ascii := ascii_of_nat (Z.to_nat (48 + d mod 10)).

Definition two_digits (n : Z) : string :=
  String (digit_char (n / 10)) (String (digit_char n) EmptyString).

Definition four_digits (n : Z) : string :=
  two_digits (n / 100) +:+ two_digits (n mod 100).

(** *** The time formats *)

(** Modelled from the spec: the format of the timestamps of show and of
    create ([SHOW_OBJ_TIME_FMT], [RES_CREATE_TIME_FMT]), as in
    2017-05-01T10:00:00. *)
Definition ISO_FMT : string := "%Y-%m-%dT%H:%M:%S".

(** Modelled from the spec: the [H:M:S] part of a partition's maximum
    time ([SHOW_PARTITION_MAXTIME_HMS_FMT]). *)
Definition HMS_FMT : string := "%H:%M:%S".

Definition valid_time (hh mm ss : Z) : bool :=
  (hh <? 24) && (mm <? 60) && (ss <? 60).

(** Zero-padded [%H:%M:%S]; the date defaults to 1900-01-01. *)
Definition parse_hms (s : string) : option datetime :=
  match field 0 2 s, field 3 2 s, field 6 2 s with
  | Some hh, Some mm, Some ss =>
      if (String.length s =? 8)%nat
         && String.eqb (String.substring 2 1 s) ":"
         && String.eqb (String.substring 5 1 s) ":"
         && valid_time hh mm ss
      then Some (of_fields 1900 1 1 hh mm ss) else None
  | _, _, _ => None
  end.

(** Zero-padded [%Y-%m-%dT%H:%M:%S]. *)
Definition parse_iso (s : string) : option datetime :=
  match field 0 4 s, field 5 2 s, field 8 2 s, parse_hms (String.substring 11 8 s) with
  | Some y, Some m, Some d, Some t =>
      if (String.length s =? 19)%nat
         && String.eqb (String.substring 4 1 s) "-"
         && String.eqb (String.substring 7 1 s) "-"
         && String.eqb (String.substring 10 1 s) "T"
         && (1 <=? y) && (1 <=? m) && (m <=? 12)
         && (1 <=? d) && (d <=? days_in_month y m)
      then Some (of_fields y m d (hour t) (minute t) (second t)) else None
  | _, _, _, _ => None
  end.

Definition format_iso (dt : datetime) : string :=
  let '(y, m, d) := ord2ymd (dt / SECONDS_PER_DAY + 1) in
  four_digits y +:+ "-" +:+ two_digits m +:+ "-" +:+ two_digits d +:+ "T"
  +:+ two_digits (hour dt) +:+ ":" +:+ two_digits (minute dt) +:+ ":"
  +:+ two_digits (second dt).

Definition sample_strptime (text format : string) : option datetime :=
  if String.eqb format ISO_FMT then parse_iso text
  else if String.eqb format HMS_FMT then parse_hms text
  else None.

(** Python 2 formats no year before 1900. *)
Definition sample_strftime (dt : datetime) (format : string) : option string :=
  if String.eqb format ISO_FMT && (of_fields 1900 1 1 0 0 0 <=? dt)
  then Some (format_iso dt) else None.

Definition lib : library :=
  {| strptime := sample_strptime;
     strftime := sample_strftime;
     int := number |}.

(** *** Constants, settings, manager *)

(** Modelled from the spec: the constants of [hil_slurm_constants].  The
    role tokens and the command names are the spec's; the reservation
    prefix, the flags and the feature tag are sample values. *)
Definition consts : constants :=
  {| SHOW_OBJ_TIME_FMT := ISO_FMT;
     RES_CREATE_TIME_FMT := ISO_FMT;
     SHOW_PARTITION_MAXTIME_HMS_FMT := HMS_FMT;
     RES_CREATE_HIL_FEATURES := "HIL";
     HIL_RESERVE := "reserve";
     HIL_RELEASE := "release";
     HIL_RESERVATION_COMMANDS := ["hil_reserve"; "hil_release"];
     HIL_RESERVATION_PREFIX := "flexalloc_MOC";
     RES_CREATE_FLAGS := "maint,ignore_jobs";
     RES_RELEASE_FLAGS := "maint,ignore_jobs" |}.

(** Modelled from the spec: the settings of [hil_slurm_settings], with
    the partition prefix and the default duration of the spec's
    scenario, every check enabled, and a sample grace period. *)
Definition setts : settings :=
  {| HIL_PARTITION_PREFIX := "hil_";
     RES_CHECK_DEFAULT_PARTITION := true;
     RES_CHECK_EXCLUSIVE_PARTITION := true;
     RES_CHECK_SHARED_PARTITION := true;
     RES_CHECK_PARTITION_STATE := true;
     HIL_RESERVATION_DEFAULT_DURATION := 3600;
     HIL_RESERVATION_GRACE_PERIOD := 600 |}.

Definition no_reply : reply :=
  {| records := []; stdout := EmptyString; stderr := EmptyString |}.

Definition failure (text : string) : reply :=
  {| records := []; stdout := EmptyString; stderr := text |}.

(** A manager that plays back a script of replies, whatever the call. *)
Definition scripted : manager :=
  {| mgr_state := list reply;
     respond := fun _ script =>
       match script with
       | r :: script' => (r, script')
       | [] => (no_reply, [])
       end |}.

Definition start (script : list reply) : world scripted :=
  Build_world scripted [] script.

Definition alice : environment :=
  {| jobname := "hil_reserve"; partition := "hil_part1"; username := "alice";
     job_id := "42"; job_uid := "1000"; job_account := "moc";
     nodelist := "node[1-2]" |}.

Definition part (max_time : string) : dict :=
  list_to_map [("PartitionName", "hil_part1"); ("State", "UP");
               ("Default", "NO"); ("Shared", "NO"); ("ExclusiveUser", "YES");
               ("MaxTime", max_time)].

Definition hil_part1 : dict := part "UNLIMITED".

Definition general : dict :=
  list_to_map [("PartitionName", "general"); ("State", "DOWN");
               ("Default", "YES"); ("Shared", "NO"); ("ExclusiveUser", "NO");
               ("MaxTime", "UNLIMITED")].

Definition job (end_time time_limit : string) : dict :=
  list_to_map [("JobName", "hil_reserve"); ("StartTime", "2017-05-01T10:00:00");
               ("EndTime", end_time); ("TimeLimit", time_limit)].

Definition release_job (reservation : string) : dict :=
  list_to_map [("JobName", "hil_release"); ("StartTime", "2017-05-01T10:30:00");
               ("EndTime", "Unknown"); ("TimeLimit", "UNLIMITED");
               ("Reservation", reservation)].

Definition not_found (resname : string) : reply :=
  failure ("Reservation " +:+ resname +:+ " not found").

(** The two helpers of [main], showing the same records whatever the
    name asked for. *)
Definition shows (partitions jobs : list dict) : fetchers scripted :=
  {| get_partition_data := fun _ _ => partitions;
     get_job_data := fun _ _ => jobs |}.

Definition boot (script : list reply) : main_world scripted :=
  Build_main_world scripted [] script.

Definition as_prolog : arguments := {| hil_prolog := true; hil_epilog := false |}.
Definition as_epilog : arguments := {| hil_prolog := false; hil_epilog := true |}.

Definition bob : environment :=
  {| jobname := "hil_release"; partition := "hil_part1"; username := "bob";
     job_id := "43"; job_uid := "1001"; job_account := "moc";
     nodelist := "node[1-2]" |}.

Definition LOGFILE : string := "/var/log/moc_hil_ulsr/hil_prolog.log".

End Sample.


(** ** Vocabulary of the properties *)

(** The calls to the resource manager among a list of events. *)
Definition calls (l : list event) : list call :=
  flat_map (fun e => match e with Called c _ => [c] | Log _ _ => [] end) l.

(** Name, start and end of the reservations a list of calls creates. *)
Definition created_windows (cs : list call) : list (string * string * string) :=
  flat_map (fun c => match c with
                     | create_slurm_reservation resname _ t_start_s t_end_s _ _ _ _ =>
                         [(resname, t_start_s, t_end_s)]
                     | _ => []
                     end) cs.

(** A computation whose result does not depend on the world, and which
    only adds log entries to it. *)
Definition log_only (M : manager) {A} (m : prog M A) : Prop :=
  exists (r : result A) (logs : list event),
    calls logs = [] /\
    forall w, m w = (r, Build_world M (events w ++ logs) (mgr w)).

(** The world after a list of reasons has been logged. *)
Definition log_reasons {M : manager} (reasons : list (bool * string)) (w : world M)
  : world M :=
  fold_left (fun w reason => emit (Log INFO (Text (snd reason))) w) reasons w.

(** The query for a reservation name, the test the prolog makes on its
    answer, and the create call. *)
Definition query (resname : string) : call :=
  exec_scontrol_show_cmd "reservation" resname.

Definition recognised_as_present (shown : reply) : bool :=
  truthy (stderr shown) && negb (contains "not found" (stderr shown)).

Definition creation (C : constants) (resname : string) (env_dict : environment)
  (t_start_s t_end_s : string) : call :=
  create_slurm_reservation resname (username env_dict) t_start_s t_end_s None
    (RES_CREATE_FLAGS C) (RES_CREATE_HIL_FEATURES C) false.

(** When a reserve and then a release reservation are created: the
    release reservation starts no earlier than the reserve reservation
    ends, both read in the format of the create call. *)
Definition release_after_reserve (C : constants) (L : library) (cs : list call) : bool :=
  match created_windows cs with
  | [(_, _, reserve_end); (_, release_start, _)] =>
      match strptime L reserve_end (RES_CREATE_TIME_FMT C),
            strptime L release_start (RES_CREATE_TIME_FMT C) with
      | Some t_end, Some t_start => t_end <=? t_start
      | _, _ => false
      end
  | _ => true
  end.

(** The five checks on a partition snapshot, in the order the validator
    makes them: whether the check is enabled and violated, and the reason
    it logs.  The name check has no switch of its own; it is vacuous when
    the configured prefix is empty. *)
Definition partition_failures (S : settings) (env_dict : environment)
  (pname state default shared exclusive : string) : list (bool * string) :=
  [ (negb (startswith pname (HIL_PARTITION_PREFIX S)),
     "Partition name `" +:+ pname +:+ "` does not match `"
     +:+ HIL_PARTITION_PREFIX S +:+ "*`");
    (RES_CHECK_PARTITION_STATE S && negb (String.eqb state "UP"),
     "Partition `" +:+ pname +:+ "` state (`" +:+ state +:+ "`) is not UP");
    (RES_CHECK_DEFAULT_PARTITION S && String.eqb default "YES",
     "Partition `" +:+ pname
     +:+ "` is the default partition, cannot be used for HIL");
    (RES_CHECK_SHARED_PARTITION S && negb (String.eqb shared "NO"),
     "Partition `" +:+ pname +:+ "` is shared, cannot be used for HIL");
    (RES_CHECK_EXCLUSIVE_PARTITION S && negb (String.eqb exclusive "YES"),
     "Partition `" +:+ pname +:+ "` not exclusive to `"
     +:+ username env_dict +:+ "`, cannot be used for HIL") ].


(** The calls to the resource manager in a trace of [main]. *)
Definition manager_calls (t : list main_event) : list call :=
  flat_map (fun e => match e with In_prolog (Called c _) => [c] | _ => [] end) t.


(** How [main] ends when a function of the prolog ends with [r]. *)
Definition outcome_of {A} (r : result A) : outcome A :=
  match r with Ok a => Returned a | Raise e => Uncaught (Raised e) end.

(** * Properties *)

(** ** Strings *)

Lemma prefix_append (p s : string) : String.prefix p (p +:+ s) = true.
Proof.
  induction p as [|a p IH]; simpl.
  - now destruct s.
  - destruct (ascii_dec a a) as [_|Hne]; [exact IH | now destruct Hne].
Qed.

Lemma prefix_append_cancel (p s t : string) :
  String.prefix (p +:+ s) (p +:+ t) = String.prefix s t.
Proof.
  induction p as [|a p IH]; simpl; [reflexivity|].
  destruct (ascii_dec a a) as [_|Hne]; [exact IH | now destruct Hne].
Qed.

Lemma append_assoc (a b c : string) : (a +:+ b) +:+ c = a +:+ (b +:+ c).
Proof.
  induction a as [|x a IH]; [reflexivity|].
  change (String x ((a +:+ b) +:+ c) = String x (a +:+ (b +:+ c))).
  now f_equal.
Qed.


Lemma split_not_nil (sep : ascii) (s : string) : split sep s <> [].
Proof.
  induction s as [|a s IH]; simpl; [discriminate|].
  destruct (Ascii.eqb a sep); [discriminate|].
  destruct (split sep s); [contradiction | discriminate].
Qed.

Lemma prefix_true_iff (p s : string) :
  String.prefix p s = true <-> exists t, s = p +:+ t.
Proof.
  revert s. induction p as [|a p IH]; intros s.
  - split; [intros _; now exists s | intros _; now destruct s].
  - destruct s as [|b s]; cbn [String.prefix].
    + split; [discriminate | intros [t Ht]; discriminate Ht].
    + destruct (ascii_dec a b) as [->|Hne].
      * rewrite IH. split; intros [t Ht]; exists t.
        -- now rewrite Ht.
        -- now injection Ht.
      * split; [discriminate|]. intros [t Ht]. injection Ht as Hab _.
        now destruct Hne.
Qed.

Lemma contains_unfold (sub s : string) :
  contains sub s
  = String.prefix sub s
    || match s with EmptyString => false | String _ s' => contains sub s' end.
Proof. now destruct s. Qed.

(** [contains] is the substring test. *)
Lemma contains_true_iff (sub s : string) :
  contains sub s = true <-> exists a b, s = a +:+ sub +:+ b.
Proof.
  split.
  - induction s as [|c s IH]; rewrite contains_unfold; intros H;
      apply orb_true_iff in H as [H|H]; try discriminate H.
    + apply prefix_true_iff in H as [t Ht]. now exists EmptyString, t.
    + apply prefix_true_iff in H as [t Ht]. now exists EmptyString, t.
    + destruct (IH H) as (a & b & Hs). exists (String c a), b. now rewrite Hs.
  - intros (a & b & ->). induction a as [|c a IH]; rewrite contains_unfold.
    + apply orb_true_iff. left. apply prefix_true_iff. now exists b.
    + apply orb_true_iff. right. exact IH.
Qed.

(** [split] cuts at every separator and at nothing else: joining the
    pieces with the separator gives the text back. *)
Lemma concat_split (sep : ascii) (s : string) :
  String.concat (String sep EmptyString) (split sep s) = s.
Proof.
  induction s as [|a s IH]; [reflexivity|]. cbn [split].
  pose proof (split_not_nil sep s) as Hne.
  destruct (Ascii.eqb_spec a sep) as [->|Hsep].
  - destruct (split sep s) as [|h t]; [contradiction|].
    change (String sep (String.concat (String sep EmptyString) (h :: t)) = String sep s).
    now rewrite IH.
  - destruct (split sep s) as [|h t]; [contradiction|].
    destruct t as [|h' t].
    + cbn in IH |- *. now rewrite IH.
    + change (String a (String.concat (String sep EmptyString) (h :: h' :: t))
              = String a s).
      now rewrite IH.
Qed.

(** ** Running the monad *)

Section Run.

Context {M : manager}.

Lemma run_bind_ret {A B} (a : A) (k : A -> prog M B) (w : world M) :
  bind (ret a) k w = k a w.
Proof. reflexivity. Qed.

Lemma run_bind_raise {A B} (e : exn) (k : A -> prog M B) (w : world M) :
  bind (raise e) k w = (Raise e, w).
Proof. reflexivity. Qed.

Lemma run_bind_log {B} lvl msg (k : unit -> prog M B) (w : world M) :
  bind (log lvl msg) k w = k tt (emit (Log lvl msg) w).
Proof. reflexivity. Qed.

Lemma run_bind_assoc {A B D} (m : prog M A) (k : A -> prog M B)
  (h : B -> prog M D) (w : world M) :
  bind (bind m k) h w = bind m (fun a => bind (k a) h) w.
Proof. unfold bind. destruct (m w) as [[a|e] w']; reflexivity. Qed.

Lemma run_bind_subscript {B} (d : dict) key v (k : string -> prog M B) w :
  d !! key = Some v -> bind (subscript d key) k w = k v w.
Proof. intros H. unfold bind, subscript. now rewrite H. Qed.

Lemma run_bind_subscript_missing {B} (d : dict) key (k : string -> prog M B) w :
  d !! key = None -> bind (subscript d key) k w = (Raise (KeyError key), w).
Proof. intros H. unfold bind, subscript. now rewrite H. Qed.

Lemma run_bind_lift {A B} (r : result A) a (k : A -> prog M B) w :
  r = Ok a -> bind (lift r) k w = k a w.
Proof. now intros ->. Qed.

Lemma run_bind_lift_raise {A B} (r : result A) e (k : A -> prog M B) w :
  r = Raise e -> bind (lift r) k w = (Raise e, w).
Proof. now intros ->. Qed.

Lemma run_bind_value {A B} (o : option A) a (k : A -> prog M B) w :
  o = Some a -> bind (or_ValueError o) k w = k a w.
Proof. now intros ->. Qed.

Lemma run_bind_helper {B} (c : call) (k : reply -> prog M B) w :
  bind (helper c) k w =
  k (fst (respond M c (mgr w)))
    (Build_world M (events w ++ [Called c (fst (respond M c (mgr w)))])
                 (snd (respond M c (mgr w)))).
Proof. unfold bind, helper. now destruct (respond M c (mgr w)). Qed.

Lemma emit_events (e : event) (w : world M) : events (emit e w) = events w ++ [e].
Proof. reflexivity. Qed.

Lemma emit_mgr (e : event) (w : world M) : mgr (emit e w) = mgr w.
Proof. reflexivity. Qed.

End Run.


Lemma calls_app (l1 l2 : list event) : calls (l1 ++ l2) = calls l1 ++ calls l2.
Proof. unfold calls. apply flat_map_app. Qed.

(** ** Reservation names *)

Section Names.

Context (C : constants).

Lemma reservation_name_shape name_token env_dict t_start_s :
  _get_hil_reservation_name C name_token env_dict t_start_s =
  HIL_RESERVATION_PREFIX C +:+ "_" +:+ name_token +:+ "_" +:+ username env_dict
  +:+ "_" +:+ job_uid env_dict +:+ "_" +:+ t_start_s.
Proof.
  unfold _get_hil_reservation_name. cbv zeta. now rewrite !append_assoc.
Qed.

(** C2, as amended: every name the constructor produces begins with
    the reservation prefix, an underscore, the role token, an
    underscore and then the owning username. *)
Theorem C2_name_begins_with_prefix_token_user name_token env_dict t_start_s :
  startswith (_get_hil_reservation_name C name_token env_dict t_start_s)
    (HIL_RESERVATION_PREFIX C +:+ "_" +:+ name_token +:+ "_" +:+ username env_dict)
  = true.
Proof.
  rewrite reservation_name_shape. unfold startswith.
  rewrite !prefix_append_cancel. apply prefix_append.
Qed.



End Names.

(** C2, as stated, fails: the name built for user alice does not begin
    with the prefix followed by her username. *)
Lemma C2_name_does_not_begin_with_prefix_user :
  ~ (forall (C : constants) (name_token : string) (env_dict : environment)
       (t_start_s : string),
        startswith (_get_hil_reservation_name C name_token env_dict t_start_s)
          (HIL_RESERVATION_PREFIX C +:+ username env_dict) = true).
Proof.
  intros H.
  specialize (H Sample.consts "reserve" Sample.alice "2017-05-01T10:00:00").
  vm_compute in H. discriminate H.
Qed.

(** ** The deletion guard *)

Section Deletion.

Context (C : constants) (M : manager).

(** C3: a name that does not start with the reservation prefix
    followed by the invoking username is refused: the function
    returns [None] with a failure text, logs the error and issues no
    call to the manager, whose state is unchanged.  A name with that
    prefix is forwarded: exactly one call, the delete of that name,
    and the manager's reply is the result. *)
Theorem C3_delete_refused_without_owner_prefix
  (env_dict : environment) (pdata_dict jobdata_dict : dict) (resname : string)
  (w : world M) :
  let run := _delete_hil_reservation C M env_dict pdata_dict jobdata_dict resname w in
  let answer := respond M (delete_slurm_reservation resname false) (mgr w) in
  (startswith resname (HIL_RESERVATION_PREFIX C +:+ username env_dict) = false ->
     fst run = Ok (None, "hil_release: error: Invalid reservation name")
     /\ events (snd run) =
          (events w ++
           [Log INFO (Text ("Deleting HIL reservation `" +:+ resname +:+ "`"));
            Log INFO (Text ("Error in HIL reservation name (`" +:+ resname +:+ "`)"))])%list
     /\ calls (events (snd run)) = calls (events w)
     /\ mgr (snd run) = mgr w)
  /\
  (startswith resname (HIL_RESERVATION_PREFIX C +:+ username env_dict) = true ->
     fst run = Ok (Some (stdout (fst answer)), stderr (fst answer))
     /\ calls (events (snd run)) =
          (calls (events w) ++ [delete_slurm_reservation resname false])%list
     /\ mgr (snd run) = snd answer).
Proof.
  cbv zeta. unfold _delete_hil_reservation, log_info.
  rewrite run_bind_log. split; intros Hguard; rewrite Hguard; cbn [negb].
  - rewrite run_bind_log. cbn [ret fst snd]. repeat split.
    + rewrite !emit_events, <- app_assoc. reflexivity.
    + rewrite !emit_events, !calls_app. cbn. now rewrite !app_nil_r.
  - rewrite run_bind_helper. cbn [ret fst snd events mgr]. repeat split.
    rewrite emit_events, !calls_app. cbn. now rewrite app_nil_r.
Qed.

End Deletion.

Lemma C3_delete_refused_without_owner_prefix_witness :
  (let run := _delete_hil_reservation Sample.consts Sample.scripted Sample.alice
                ∅ ∅ "flexalloc_MOCbob_1000_2017-05-01T10:00:00"
                (Sample.start [Sample.no_reply]) in
   fst run = Ok (None, "hil_release: error: Invalid reservation name")
   /\ calls (events (snd run)) = []
   /\ mgr (snd run) = [Sample.no_reply])
  /\
  (let run := _delete_hil_reservation Sample.consts Sample.scripted Sample.alice
                ∅ ∅ "flexalloc_MOCalice_1000_2017-05-01T10:00:00"
                (Sample.start [Sample.no_reply]) in
   calls (events (snd run)) =
     [delete_slurm_reservation "flexalloc_MOCalice_1000_2017-05-01T10:00:00" false]).
Proof.
  split.
  - destruct (C3_delete_refused_without_owner_prefix Sample.consts Sample.scripted
                Sample.alice ∅ ∅ "flexalloc_MOCbob_1000_2017-05-01T10:00:00"
                (Sample.start [Sample.no_reply])) as [Hrefused _].
    destruct (Hrefused eq_refl) as (Hres & _ & Hcalls & Hmgr).
    exact (conj Hres (conj Hcalls Hmgr)).
  - destruct (C3_delete_refused_without_owner_prefix Sample.consts Sample.scripted
                Sample.alice ∅ ∅ "flexalloc_MOCalice_1000_2017-05-01T10:00:00"
                (Sample.start [Sample.no_reply])) as [_ Hforwarded].
    destruct (Hforwarded eq_refl) as (_ & Hcalls & _).
    exact Hcalls.
Defined.

(** ** The release command *)

Section Release.

Context (C : constants) (M : manager).

(** No statement of the module binds [resname] or [re]. *)
Lemma resname_unbound {A} (v : A) :
  @global M A "resname" v = raise (NameError "resname").
Proof. reflexivity. Qed.

Lemma re_unbound {A} (v : A) : @global M A "re" v = raise (NameError "re").
Proof. reflexivity. Qed.

(** With a reservation name attached, each of the three branches
    first reads [resname]. *)
Lemma release_reads_unbound_resname
  (env_dict : environment) (pdata_dict jobdata_dict : dict)
  (reserve_resname : string) (w : world M) :
  jobdata_dict !! "Reservation" = Some reserve_resname ->
  truthy reserve_resname = true ->
  _hil_release_cmd C M env_dict pdata_dict jobdata_dict w
  = (Raise (NameError "resname"), w).
Proof.
  intros Hres Hset. unfold _hil_release_cmd.
  rewrite (run_bind_subscript _ _ _ _ _ Hres), Hset.
  destruct (contains (username env_dict) reserve_resname); cbn [negb];
    [destruct (contains (HIL_RESERVE C) reserve_resname); cbn [negb]|];
    now rewrite resname_unbound.
Qed.

(** C1: the release of a job whose reservation name contains the
    username and the reserve token stops at the read of the unbound
    name [resname], in the argument list of the delete: no event, no
    call to the manager, neither delete nor update. *)
Theorem C1_release_stops_before_delete
  (env_dict : environment) (pdata_dict jobdata_dict : dict)
  (reserve_resname : string) (w : world M) :
  jobdata_dict !! "Reservation" = Some reserve_resname ->
  truthy reserve_resname = true ->
  contains (username env_dict) reserve_resname = true ->
  contains (HIL_RESERVE C) reserve_resname = true ->
  _hil_release_cmd C M env_dict pdata_dict jobdata_dict w
  = (Raise (NameError "resname"), w).
Proof.
  intros Hres Hset _ _. now apply release_reads_unbound_resname with reserve_resname.
Qed.

(** C8: when the reservation name lacks the username or the reserve
    token, the command stops at the read of the unbound name
    [resname] while it builds the error text: nothing is logged,
    nothing is deleted or changed. *)
Theorem C8_release_rejection_not_logged
  (env_dict : environment) (pdata_dict jobdata_dict : dict)
  (reserve_resname : string) (w : world M) :
  jobdata_dict !! "Reservation" = Some reserve_resname ->
  truthy reserve_resname = true ->
  contains (username env_dict) reserve_resname = false
  \/ contains (HIL_RESERVE C) reserve_resname = false ->
  _hil_release_cmd C M env_dict pdata_dict jobdata_dict w
  = (Raise (NameError "resname"), w).
Proof.
  intros Hres Hset _. now apply release_reads_unbound_resname with reserve_resname.
Qed.

(** An empty reservation name is reported in the log. *)
Lemma release_without_reservation_name
  (env_dict : environment) (pdata_dict jobdata_dict : dict)
  (reserve_resname job_name : string) (w : world M) :
  jobdata_dict !! "Reservation" = Some reserve_resname ->
  truthy reserve_resname = false ->
  jobdata_dict !! "JobName" = Some job_name ->
  _hil_release_cmd C M env_dict pdata_dict jobdata_dict w
  = (Ok tt, emit (Log ERROR (Text ("No reservation name specified to `"
                                   +:+ job_name +:+ "` command"))) w).
Proof.
  intros Hres Hset Hjob. unfold _hil_release_cmd.
  rewrite (run_bind_subscript _ _ _ _ _ Hres), Hset.
  now rewrite (run_bind_subscript _ _ _ _ _ Hjob).
Qed.

(** A job record with no [Reservation] entry ends the command with
    [KeyError]. *)
Lemma release_without_reservation_entry
  (env_dict : environment) (pdata_dict jobdata_dict : dict) (w : world M) :
  jobdata_dict !! "Reservation" = None ->
  _hil_release_cmd C M env_dict pdata_dict jobdata_dict w
  = (Raise (KeyError "Reservation"), w).
Proof.
  intros Hres. unfold _hil_release_cmd.
  now rewrite (run_bind_subscript_missing _ _ _ _ Hres).
Qed.

(** Whatever the job, the release command as written never reaches
    the resource manager. *)
Lemma release_never_calls_manager
  (env_dict : environment) (pdata_dict jobdata_dict : dict) (w : world M) :
  let run := _hil_release_cmd C M env_dict pdata_dict jobdata_dict w in
  calls (events (snd run)) = calls (events w) /\ mgr (snd run) = mgr w.
Proof.
  cbv zeta.
  destruct (jobdata_dict !! "Reservation") as [name|] eqn:Hres;
    [|now rewrite (release_without_reservation_entry _ _ _ _ Hres)].
  destruct (truthy name) eqn:Hset.
  - now rewrite (release_reads_unbound_resname _ _ _ _ _ Hres Hset).
  - destruct (jobdata_dict !! "JobName") as [job_name|] eqn:Hjob.
    + rewrite (release_without_reservation_name _ _ _ _ _ _ Hres Hset Hjob).
      cbn [snd]. rewrite emit_events, calls_app, emit_mgr. cbn.
      now rewrite app_nil_r.
    + unfold _hil_release_cmd.
      rewrite (run_bind_subscript _ _ _ _ _ Hres), Hset.
      now rewrite (run_bind_subscript_missing _ _ _ _ Hjob).
Qed.


End Release.

(** ** The reservation window *)

Lemma timedelta_seconds_in_range (n : Z) :
  delta_in_range n = true -> timedelta_seconds n = Ok n.
Proof. unfold timedelta_seconds. now intros ->. Qed.

Lemma add_in_range (dt : datetime) (td : timedelta) :
  in_range (dt + td) = true -> add dt td = Ok (dt + td).
Proof. unfold add. now intros ->. Qed.

Section Run_more.

Context {M : manager}.

Lemma run_bind_value_missing {A B} (o : option A) (k : A -> prog M B) w :
  o = None -> bind (or_ValueError o) k w = (Raise ValueError, w).
Proof. now intros ->. Qed.

Lemma run_bind_local {A B} name (a : A) (k : A -> prog M B) w :
  bind (local name (Some a)) k w = k a w.
Proof. reflexivity. Qed.

Lemma run_bind_local_unbound {A B} name (k : A -> prog M B) w :
  bind (local name None) k w = (Raise (UnboundLocalError name), w).
Proof. reflexivity. Qed.

End Run_more.

Ltac run :=
  repeat first
    [ rewrite run_bind_assoc
    | rewrite run_bind_log
    | rewrite run_bind_ret
    | rewrite run_bind_raise
    | rewrite run_bind_local
    | rewrite run_bind_local_unbound
    | erewrite run_bind_subscript by eassumption
    | erewrite run_bind_subscript_missing by eassumption
    | erewrite run_bind_value by eassumption
    | erewrite run_bind_value_missing by eassumption
    | erewrite run_bind_lift by (eauto using timedelta_seconds_in_range, add_in_range) ].

Section Window.

Context (C : constants) (S : settings) (L : library) (M : manager).

Local Abbreviation times := (_get_hil_reservation_times C S L M).

(** C5: a job with a defined end time gets the reservation end
    [job end + grace period], whatever its time limit and whatever
    the partition's maximum time (neither is read); a job with no end
    time and no time limit in a partition whose maximum time is
    UNLIMITED gets [start + default duration]. *)
Theorem C5_end_is_job_end_plus_grace_or_start_plus_default
  (env_dict : environment) (pdata_dict jobdata_dict : dict) (w : world M)
  (t_job_start_s t_job_end_s t_start_s : string) (t_start_dt : datetime) :
  jobdata_dict !! "StartTime" = Some t_job_start_s ->
  jobdata_dict !! "EndTime" = Some t_job_end_s ->
  strptime L t_job_start_s (SHOW_OBJ_TIME_FMT C) = Some t_start_dt ->
  strftime L t_start_dt (RES_CREATE_TIME_FMT C) = Some t_start_s ->
  (forall (t_end_dt : datetime) (t_end_s : string),
      contains "Unknown" t_job_end_s = false ->
      strptime L t_job_end_s (SHOW_OBJ_TIME_FMT C) = Some t_end_dt ->
      delta_in_range (HIL_RESERVATION_GRACE_PERIOD S) = true ->
      in_range (t_end_dt + HIL_RESERVATION_GRACE_PERIOD S) = true ->
      strftime L (t_end_dt + HIL_RESERVATION_GRACE_PERIOD S) (RES_CREATE_TIME_FMT C)
      = Some t_end_s ->
      times env_dict pdata_dict jobdata_dict w
      = (Ok (t_start_s, t_end_s),
         emit (Log DEBUG (Text "Using job end time for reservation")) w))
  /\
  (forall (time_limit p_max_time_s t_end_s : string),
      contains "Unknown" t_job_end_s = true ->
      jobdata_dict !! "TimeLimit" = Some time_limit ->
      contains "UNLIMITED" time_limit = true ->
      pdata_dict !! "MaxTime" = Some p_max_time_s ->
      contains "UNLIMITED" p_max_time_s = true ->
      delta_in_range (HIL_RESERVATION_DEFAULT_DURATION S) = true ->
      in_range (t_start_dt + HIL_RESERVATION_DEFAULT_DURATION S) = true ->
      strftime L (t_start_dt + HIL_RESERVATION_DEFAULT_DURATION S)
        (RES_CREATE_TIME_FMT C) = Some t_end_s ->
      times env_dict pdata_dict jobdata_dict w
      = (Ok (t_start_s, t_end_s),
         emit (Log DEBUG (Text "No job or partition time limit, using HIL default reservation duration"))
           (emit (Log DEBUG (Text ("Partition MaxTime is " +:+ p_max_time_s))) w))).
Proof.
  intros Hstart Hend Hparse Hformat. split.
  - intros t_end_dt t_end_s Hknown Hparse_end Hgrace Hrange Hformat_end.
    unfold _get_hil_reservation_times, py_strptime, py_strftime, log_debug.
    run. rewrite Hknown. cbn [negb]. run. reflexivity.
  - intros time_limit p_max_time_s t_end_s Hunknown Hlimit Hnolimit Hmax Hnomax
      Hduration Hrange Hformat_end.
    unfold _get_hil_reservation_times, py_strptime, py_strftime, log_debug.
    run. rewrite Hunknown. cbn [negb]. run. rewrite Hnolimit. run.
    rewrite Hnomax. run. reflexivity.
Qed.

(** C9: a job with a finite time limit and no end time gets no end
    time: the branch only logs, no value is computed from the time
    limit, and the function returns no window.  When the start time
    parses and formats, the computation ends at the read of the
    unassigned local [t_end_dt]. *)
Theorem C9_finite_time_limit_sets_no_end
  (env_dict : environment) (pdata_dict jobdata_dict : dict) (w : world M)
  (t_job_start_s t_job_end_s time_limit : string) :
  jobdata_dict !! "StartTime" = Some t_job_start_s ->
  jobdata_dict !! "EndTime" = Some t_job_end_s ->
  contains "Unknown" t_job_end_s = true ->
  jobdata_dict !! "TimeLimit" = Some time_limit ->
  contains "UNLIMITED" time_limit = false ->
  (forall window, fst (times env_dict pdata_dict jobdata_dict w) <> Ok window)
  /\
  (forall (t_start_dt : datetime) (t_start_s : string),
      strptime L t_job_start_s (SHOW_OBJ_TIME_FMT C) = Some t_start_dt ->
      strftime L t_start_dt (RES_CREATE_TIME_FMT C) = Some t_start_s ->
      times env_dict pdata_dict jobdata_dict w
      = (Raise (UnboundLocalError "t_end_dt"),
         emit (Log DEBUG (Text "Job has a time limit! Unsupported!")) w)).
Proof.
  intros Hstart Hend Hunknown Hlimit Hfinite.
  assert (Hrun : forall t_start_dt,
             strptime L t_job_start_s (SHOW_OBJ_TIME_FMT C) = Some t_start_dt ->
             times env_dict pdata_dict jobdata_dict w
             = bind (py_strftime L M t_start_dt (RES_CREATE_TIME_FMT C))
                 (fun _ => raise (UnboundLocalError "t_end_dt"))
                 (emit (Log DEBUG (Text "Job has a time limit! Unsupported!")) w)).
  { intros t_start_dt Hparse.
    unfold _get_hil_reservation_times, py_strptime, log_debug.
    run. rewrite Hunknown. cbn [negb]. run. rewrite Hfinite. run.
    unfold bind. destruct (py_strftime _ _ _ _ _) as [[t_start_s|e] w'];
      reflexivity. }
  split.
  - intros window.
    destruct (strptime L t_job_start_s (SHOW_OBJ_TIME_FMT C)) as [t_start_dt|] eqn:Hparse.
    + rewrite (Hrun _ eq_refl). unfold py_strftime.
      destruct (strftime L t_start_dt (RES_CREATE_TIME_FMT C)) eqn:Hformat;
        run; discriminate.
    + unfold _get_hil_reservation_times, py_strptime. run. discriminate.
  - intros t_start_dt t_start_s Hparse Hformat.
    rewrite (Hrun _ Hparse). unfold py_strftime. run. reflexivity.
Qed.

(** C4: with no end time, no time limit and a partition maximum time
    that is not UNLIMITED, the function returns no window at all: a
    maximum time with a days field stops at the attribute [timedelta]
    that the class [datetime] does not have, one without a days field
    is parsed and dropped, so that [t_end_dt] is never assigned. *)
Theorem C4_partition_max_time_gives_no_end
  (env_dict : environment) (pdata_dict jobdata_dict : dict) (w : world M)
  (t_job_start_s t_job_end_s time_limit p_max_time_s : string)
  (t_start_dt : datetime) :
  jobdata_dict !! "StartTime" = Some t_job_start_s ->
  jobdata_dict !! "EndTime" = Some t_job_end_s ->
  contains "Unknown" t_job_end_s = true ->
  jobdata_dict !! "TimeLimit" = Some time_limit ->
  contains "UNLIMITED" time_limit = true ->
  pdata_dict !! "MaxTime" = Some p_max_time_s ->
  contains "UNLIMITED" p_max_time_s = false ->
  strptime L t_job_start_s (SHOW_OBJ_TIME_FMT C) = Some t_start_dt ->
  (forall days hms,
      split "-" p_max_time_s = [days; hms] ->
      fst (times env_dict pdata_dict jobdata_dict w)
      = Raise (AttributeError "datetime" "timedelta"))
  /\
  (forall hms p_max_hms_dt t_start_s,
      split "-" p_max_time_s = [hms] ->
      strptime L hms (SHOW_PARTITION_MAXTIME_HMS_FMT C) = Some p_max_hms_dt ->
      strftime L t_start_dt (RES_CREATE_TIME_FMT C) = Some t_start_s ->
      fst (times env_dict pdata_dict jobdata_dict w)
      = Raise (UnboundLocalError "t_end_dt"))
  /\
  (forall window, fst (times env_dict pdata_dict jobdata_dict w) <> Ok window).
Proof.
  intros Hstart Hend Hunknown Hlimit Hnolimit Hmax Hbounded Hparse.
  unfold _get_hil_reservation_times, py_strptime, py_strftime, log_debug, log_error.
  run. rewrite Hunknown. cbn [negb]. run. rewrite Hnolimit. run.
  rewrite Hbounded. run.
  split; [|split].
  - intros days hms Hsplit. rewrite Hsplit. run. reflexivity.
  - intros hms p_max_hms_dt t_start_s Hsplit Hparse_hms Hformat.
    rewrite Hsplit. run. reflexivity.
  - intros window.
    destruct (split "-" p_max_time_s) as [|hms [|days [|more rest]]].
    + run. destruct (strftime L t_start_dt (RES_CREATE_TIME_FMT C)) eqn:Hformat;
        run; discriminate.
    + destruct (strptime L hms (SHOW_PARTITION_MAXTIME_HMS_FMT C)) eqn:Hparse_hms;
        run; [|discriminate].
      destruct (strftime L t_start_dt (RES_CREATE_TIME_FMT C)) eqn:Hformat;
        run; discriminate.
    + run. discriminate.
    + run. destruct (strftime L t_start_dt (RES_CREATE_TIME_FMT C)) eqn:Hformat;
        run; discriminate.
Qed.

End Window.

(** ** Computations that only log *)

Section Frame.

Context {M : manager}.


Lemma world_app_nil (w : world M) : Build_world M (events w ++ []) (mgr w) = w.
Proof. destruct w as [evs s]. cbn. now rewrite app_nil_r. Qed.

Lemma log_only_ret {A} (a : A) : log_only M (ret a).
Proof. exists (Ok a), []. split; [reflexivity|]. intros w. now rewrite world_app_nil. Qed.

Lemma log_only_raise {A} (e : exn) : log_only M (@raise M A e).
Proof. exists (Raise e), []. split; [reflexivity|]. intros w. now rewrite world_app_nil. Qed.

Lemma log_only_lift {A} (r : result A) : log_only M (lift r).
Proof. exists r, []. split; [reflexivity|]. intros w. unfold lift. now rewrite world_app_nil. Qed.

Lemma log_only_log lvl msg : log_only M (log lvl msg).
Proof. exists (Ok tt), [Log lvl msg]. split; reflexivity. Qed.

Lemma log_only_subscript (d : dict) key : log_only M (subscript d key).
Proof.
  unfold subscript. destruct (d !! key); [apply log_only_ret | apply log_only_raise].
Qed.

Lemma log_only_value {A} (o : option A) : log_only M (or_ValueError o).
Proof. destruct o; [apply log_only_ret | apply log_only_raise]. Qed.

Lemma log_only_local {A} name (o : option A) : log_only M (local name o).
Proof. destruct o; [apply log_only_ret | apply log_only_raise]. Qed.

Lemma log_only_bind {A B} (m : prog M A) (k : A -> prog M B) :
  log_only M m -> (forall a, log_only M (k a)) -> log_only M (bind m k).
Proof.
  intros (r & logs & Hlogs & Hm) Hk. destruct r as [a|e].
  - destruct (Hk a) as (r' & logs' & Hlogs' & Hka).
    exists r', (logs ++ logs')%list. split.
    + now rewrite calls_app, Hlogs, Hlogs'.
    + intros w. unfold bind. rewrite Hm, Hka. cbn [events mgr].
      now rewrite app_assoc.
  - exists (Raise e), logs. split; [exact Hlogs|].
    intros w. unfold bind. now rewrite Hm.
Qed.

Lemma log_only_value_fixed {A} (m : prog M A) (w1 w2 : world M) :
  log_only M m -> fst (m w1) = fst (m w2).
Proof. intros (r & logs & _ & Hm). now rewrite !Hm. Qed.

Lemma log_only_frame {A} (m : prog M A) (w : world M) :
  log_only M m ->
  calls (events (snd (m w))) = calls (events w) /\ mgr (snd (m w)) = mgr w.
Proof.
  intros (r & logs & Hlogs & Hm). rewrite Hm. cbn [snd events mgr].
  now rewrite calls_app, Hlogs, app_nil_r.
Qed.

End Frame.

Ltac log_only :=
  repeat first
    [ apply log_only_ret
    | apply log_only_raise
    | apply log_only_lift
    | apply log_only_log
    | apply log_only_subscript
    | apply log_only_value
    | apply log_only_local
    | apply log_only_bind; [|intros ?]
    | match goal with
      | |- log_only _ (if ?b then _ else _) => destruct b
      | |- log_only _ (match ?l with _ => _ end) => destruct l
      end ].

Section Creation.

Context (C : constants) (S : settings) (L : library) (M : manager).

Local Abbreviation times := (_get_hil_reservation_times C S L M).

(** The window calculator never reaches the resource manager. *)
Lemma times_log_only (env_dict : environment) (pdata_dict jobdata_dict : dict) :
  log_only M (times env_dict pdata_dict jobdata_dict).
Proof.
  unfold _get_hil_reservation_times, py_strptime, py_strftime, py_int,
    log_debug, log_error.
  log_only.
Qed.

Lemma partition_check_log_only (env_dict : environment) (pdata_dict : dict) :
  log_only M (_check_hil_partition S M env_dict pdata_dict).
Proof. unfold _check_hil_partition, log_info. log_only. Qed.

Lemma times_value_fixed
  (env_dict : environment) (pdata_dict jobdata_dict : dict) (w1 w2 : world M) :
  fst (times env_dict pdata_dict jobdata_dict w1)
  = fst (times env_dict pdata_dict jobdata_dict w2).
Proof. apply log_only_value_fixed, times_log_only. Qed.


(** One run of [_create_hil_reservation], once the window is known. *)
Lemma create_run
  (name_token : string) (env_dict : environment) (pdata_dict jobdata_dict : dict)
  (w : world M) (t_start_s t_end_s : string) :
  fst (times env_dict pdata_dict jobdata_dict w) = Ok (t_start_s, t_end_s) ->
  let w1 := snd (times env_dict pdata_dict jobdata_dict w) in
  let resname := _get_hil_reservation_name C name_token env_dict t_start_s in
  let shown := respond M (query resname) (mgr w1) in
  let made := respond M (creation C resname env_dict t_start_s t_end_s) (snd shown) in
  _create_hil_reservation C S L M name_token env_dict pdata_dict jobdata_dict w
  = if recognised_as_present (fst shown) then
      (Ok (resname, stderr (fst shown)),
       Build_world M
         (events w1 ++
          [Called (query resname) (fst shown);
           Log INFO (Text ("HIL reservation `" +:+ resname +:+ "` already exists"))])
         (snd shown))
    else
      (Ok (resname, stderr (fst made)),
       Build_world M
         (events w1 ++
          [Called (query resname) (fst shown);
           Log INFO (Text ("Creating HIL reservation `" +:+ resname
                           +:+ "`, ending " +:+ t_end_s));
           Called (creation C resname env_dict t_start_s t_end_s) (fst made)])
         (snd made)).
Proof.
  intros Htimes. cbv zeta. unfold _create_hil_reservation.
  unfold bind at 1.
  destruct (times env_dict pdata_dict jobdata_dict w) as [r w1].
  cbn [fst snd] in *. subst r.
  rewrite run_bind_helper. fold (query (_get_hil_reservation_name C name_token env_dict t_start_s)).
  unfold recognised_as_present.
  destruct (truthy _ && negb _); unfold log_info.
  - rewrite run_bind_log. unfold ret, emit. cbn [events mgr].
    now rewrite <- app_assoc.
  - rewrite run_bind_log, run_bind_helper. unfold ret, emit. cbn [events mgr].
    fold (creation C (_get_hil_reservation_name C name_token env_dict t_start_s)
            env_dict t_start_s t_end_s).
    now rewrite <- !app_assoc.
Qed.

(** C7: once the window is computed (which involves no call), the
    first call of [_create_hil_reservation] is the query for the
    computed name.  If the answer's error text is non-empty and does
    not contain "not found", no create call follows and the name is
    reported as already existing; otherwise the create call
    follows. *)
Theorem C7_create_queries_first_and_skips_when_present
  (name_token : string) (env_dict : environment) (pdata_dict jobdata_dict : dict)
  (w : world M) (t_start_s t_end_s : string) :
  fst (times env_dict pdata_dict jobdata_dict w) = Ok (t_start_s, t_end_s) ->
  let w1 := snd (times env_dict pdata_dict jobdata_dict w) in
  let resname := _get_hil_reservation_name C name_token env_dict t_start_s in
  let shown := respond M (query resname) (mgr w) in
  let made := respond M (creation C resname env_dict t_start_s t_end_s) (snd shown) in
  let run := _create_hil_reservation C S L M name_token env_dict pdata_dict jobdata_dict w in
  (truthy (stderr (fst shown)) && negb (contains "not found" (stderr (fst shown))) = true ->
     fst run = Ok (resname, stderr (fst shown))
     /\ calls (events (snd run)) = (calls (events w) ++ [query resname])%list
     /\ events (snd run) =
          (events w1 ++
           [Called (query resname) (fst shown);
            Log INFO (Text ("HIL reservation `" +:+ resname +:+ "` already exists"))])%list)
  /\
  (truthy (stderr (fst shown)) && negb (contains "not found" (stderr (fst shown))) = false ->
     fst run = Ok (resname, stderr (fst made))
     /\ calls (events (snd run)) =
          (calls (events w) ++
           [query resname; creation C resname env_dict t_start_s t_end_s])%list).
Proof.
  intros Htimes. cbv zeta.
  rewrite (create_run _ _ _ _ _ _ _ Htimes). cbv zeta.
  destruct (log_only_frame _ w (times_log_only env_dict pdata_dict jobdata_dict))
    as [Hcalls Hmgr].
  rewrite Hmgr. unfold recognised_as_present.
  split; intros Hpresent; rewrite Hpresent; cbn [fst snd events].
  - repeat split. rewrite calls_app, Hcalls. cbn. reflexivity.
  - repeat split. rewrite calls_app, Hcalls. cbn. reflexivity.
Qed.

Lemma run_bind_eq {A B} (m : prog M A) (k : A -> prog M B) (w w' : world M) (a : A) :
  m w = (Ok a, w') -> bind m k w = k a w'.
Proof. intros H. unfold bind. now rewrite H. Qed.

(** The calls of one run of [_create_hil_reservation]. *)
Lemma create_calls
  (name_token : string) (env_dict : environment) (pdata_dict jobdata_dict : dict)
  (w : world M) (t_start_s t_end_s : string) :
  fst (times env_dict pdata_dict jobdata_dict w) = Ok (t_start_s, t_end_s) ->
  let resname := _get_hil_reservation_name C name_token env_dict t_start_s in
  let shown := respond M (query resname) (mgr w) in
  let made := respond M (creation C resname env_dict t_start_s t_end_s) (snd shown) in
  exists stderr_data w',
    _create_hil_reservation C S L M name_token env_dict pdata_dict jobdata_dict w
    = (Ok (resname, stderr_data), w')
    /\ calls (events w') =
         (calls (events w) ++
          if recognised_as_present (fst shown) then [query resname]
          else [query resname; creation C resname env_dict t_start_s t_end_s])%list
    /\ mgr w' = if recognised_as_present (fst shown) then snd shown else snd made.
Proof.
  intros Htimes. cbv zeta.
  rewrite (create_run _ _ _ _ _ _ _ Htimes). cbv zeta.
  destruct (log_only_frame _ w (times_log_only env_dict pdata_dict jobdata_dict))
    as [Hcalls Hmgr].
  rewrite Hmgr.
  destruct (recognised_as_present _); eexists _, _;
    (split; [reflexivity|]); cbn [events mgr];
    rewrite calls_app, Hcalls; split; reflexivity.
Qed.

(** C10, as amended: the reserve command computes one window and
    uses it for both reservations.  Every create call it issues
    carries the start and the end of that window, so the release
    reservation starts when the reserve reservation starts; when
    neither name is recognised as present, the calls are the two
    queries and the two creations, in this order. *)
Theorem C10_release_window_is_reserve_window
  (env_dict : environment) (pdata_dict jobdata_dict : dict) (w : world M)
  (t_start_s t_end_s : string) :
  fst (times env_dict pdata_dict jobdata_dict w) = Ok (t_start_s, t_end_s) ->
  let run := _hil_reserve_cmd C S L M env_dict pdata_dict jobdata_dict w in
  let reserve_name := _get_hil_reservation_name C (HIL_RESERVE C) env_dict t_start_s in
  let release_name := _get_hil_reservation_name C (HIL_RELEASE C) env_dict t_start_s in
  let reserve_creation := creation C reserve_name env_dict t_start_s t_end_s in
  let release_creation := creation C release_name env_dict t_start_s t_end_s in
  let shown1 := respond M (query reserve_name) (mgr w) in
  let made1 := respond M reserve_creation (snd shown1) in
  let shown2 := respond M (query release_name) (snd made1) in
  fst run = Ok tt
  /\ (exists new,
        calls (events (snd run)) = (calls (events w) ++ new)%list
        /\ forall c, In c new ->
             c = query reserve_name \/ c = reserve_creation
             \/ c = query release_name \/ c = release_creation)
  /\ (recognised_as_present (fst shown1) = false ->
      recognised_as_present (fst shown2) = false ->
      calls (events (snd run)) =
        (calls (events w) ++
         [query reserve_name; reserve_creation;
          query release_name; release_creation])%list).
Proof.
  intros Htimes. cbv zeta.
  destruct (create_calls (HIL_RESERVE C) _ _ _ _ _ _ Htimes)
    as (err1 & w1 & Hrun1 & Hcalls1 & Hmgr1).
  assert (Htimes1 : fst (times env_dict pdata_dict jobdata_dict w1)
                    = Ok (t_start_s, t_end_s))
    by now rewrite (times_value_fixed _ _ _ w1 w).
  destruct (create_calls (HIL_RELEASE C) _ _ _ _ _ _ Htimes1)
    as (err2 & w2 & Hrun2 & Hcalls2 & Hmgr2).
  assert (Hrun : _hil_reserve_cmd C S L M env_dict pdata_dict jobdata_dict w
                 = (Ok tt, w2)).
  { unfold _hil_reserve_cmd, _log_hil_reservation.
    rewrite (run_bind_eq _ _ _ _ _ Hrun1). cbv beta iota.
    rewrite run_bind_ret, (run_bind_eq _ _ _ _ _ Hrun2). reflexivity. }
  rewrite Hrun. cbn [fst snd]. clear Hrun Hrun1 Hrun2.
  revert Hcalls1 Hmgr1 Hcalls2 Hmgr2.
  destruct (recognised_as_present
              (fst (respond M
                      (query (_get_hil_reservation_name C (HIL_RESERVE C) env_dict t_start_s))
                      (mgr w)))) eqn:Hp1;
    destruct (recognised_as_present
                (fst (respond M
                        (query (_get_hil_reservation_name C (HIL_RELEASE C) env_dict t_start_s))
                        (mgr w1)))) eqn:Hp2;
    intros Hcalls1 Hmgr1 Hcalls2 Hmgr2;
    rewrite Hcalls2, Hcalls1, <- app_assoc;
    (split; [reflexivity|]); split;
    try (eexists; split; [reflexivity|]; intros c Hin; cbn in Hin; intuition auto);
    intros Hq1 Hq2; try discriminate Hq1;
    rewrite Hmgr1 in Hp2; [congruence | reflexivity].
Qed.

End Creation.


(** ** The partition validator *)

Section Partition.

Context (S : settings) (M : manager).



Lemma log_reasons_events (reasons : list (bool * string)) (w : world M) :
  events (log_reasons reasons w)
  = (events w ++ map (fun reason => Log INFO (Text (snd reason))) reasons)%list.
Proof.
  revert w. induction reasons as [|reason reasons IH]; intros w; cbn.
  - now rewrite app_nil_r.
  - unfold log_reasons in IH. rewrite IH, emit_events, <- app_assoc. reflexivity.
Qed.

Lemma log_reasons_mgr (reasons : list (bool * string)) (w : world M) :
  mgr (log_reasons reasons w) = mgr w.
Proof.
  revert w. induction reasons as [|reason reasons IH]; intros w; cbn; [reflexivity|].
  unfold log_reasons in IH. now rewrite IH.
Qed.

Lemma check_partition_run
  (env_dict : environment) (pdata_dict : dict) (w : world M)
  (pname state default shared exclusive : string) :
  pdata_dict !! "PartitionName" = Some pname ->
  (RES_CHECK_PARTITION_STATE S = true -> pdata_dict !! "State" = Some state) ->
  (RES_CHECK_DEFAULT_PARTITION S = true -> pdata_dict !! "Default" = Some default) ->
  (RES_CHECK_SHARED_PARTITION S = true -> pdata_dict !! "Shared" = Some shared) ->
  (RES_CHECK_EXCLUSIVE_PARTITION S = true ->
   pdata_dict !! "ExclusiveUser" = Some exclusive) ->
  let failing :=
    List.filter fst (partition_failures S env_dict pname state default shared exclusive) in
  _check_hil_partition S M env_dict pdata_dict w
  = (Ok (match failing with [] => true | _ => false end), log_reasons failing w).
Proof.
  intros Hname Hstate Hdefault Hshared Hexclusive. cbv zeta.
  unfold _check_hil_partition, partition_failures, log_reasons, log_info, log,
    bind, subscript, ret.
  rewrite Hname.
  destruct (RES_CHECK_PARTITION_STATE S);
    [rewrite (Hstate eq_refl); destruct (String.eqb state "UP")|];
    (destruct (RES_CHECK_DEFAULT_PARTITION S);
     [rewrite (Hdefault eq_refl); destruct (String.eqb default "YES")|]);
    (destruct (RES_CHECK_SHARED_PARTITION S);
     [rewrite (Hshared eq_refl); destruct (String.eqb shared "NO")|]);
    (destruct (RES_CHECK_EXCLUSIVE_PARTITION S);
     [rewrite (Hexclusive eq_refl); destruct (String.eqb exclusive "YES")|]);
    destruct (startswith pname (HIL_PARTITION_PREFIX S));
    reflexivity.
Qed.

(** C6: the validator returns failure exactly when some enabled check is
    violated, and it logs, in order, the reason of every violated check
    (each reason names the partition and the attribute at fault); a check
    whose switch is off is not made.  The manager is not involved. *)
Theorem C6_partition_check_fails_and_logs_every_reason
  (env_dict : environment) (pdata_dict : dict) (w : world M)
  (pname state default shared exclusive : string) :
  pdata_dict !! "PartitionName" = Some pname ->
  (RES_CHECK_PARTITION_STATE S = true -> pdata_dict !! "State" = Some state) ->
  (RES_CHECK_DEFAULT_PARTITION S = true -> pdata_dict !! "Default" = Some default) ->
  (RES_CHECK_SHARED_PARTITION S = true -> pdata_dict !! "Shared" = Some shared) ->
  (RES_CHECK_EXCLUSIVE_PARTITION S = true ->
   pdata_dict !! "ExclusiveUser" = Some exclusive) ->
  let failing :=
    List.filter fst (partition_failures S env_dict pname state default shared exclusive) in
  let run := _check_hil_partition S M env_dict pdata_dict w in
  fst run = Ok (match failing with [] => true | _ => false end)
  /\ events (snd run)
     = (events w ++ map (fun reason => Log INFO (Text (snd reason))) failing)%list
  /\ mgr (snd run) = mgr w.
Proof.
  intros Hname Hstate Hdefault Hshared Hexclusive. cbv zeta.
  rewrite (check_partition_run env_dict pdata_dict w pname state default shared
             exclusive Hname Hstate Hdefault Hshared Hexclusive).
  cbv zeta. cbn [fst snd].
  now rewrite log_reasons_events, log_reasons_mgr.
Qed.

End Partition.


(** ** Runs of the sample configuration *)

Ltac by_run := vm_compute; reflexivity.

Lemma C1_release_stops_before_delete_witness :
  _hil_release_cmd Sample.consts Sample.scripted Sample.alice Sample.hil_part1
    (Sample.release_job "flexalloc_MOC_reserve_alice_1000_2017-05-01T10:00:00")
    (Sample.start [Sample.no_reply; Sample.no_reply])
  = (Raise (NameError "resname"), Sample.start [Sample.no_reply; Sample.no_reply]).
Proof.
  apply (C1_release_stops_before_delete Sample.consts Sample.scripted Sample.alice
           Sample.hil_part1
           (Sample.release_job "flexalloc_MOC_reserve_alice_1000_2017-05-01T10:00:00")
           "flexalloc_MOC_reserve_alice_1000_2017-05-01T10:00:00");
    by_run.
Defined.

Lemma C8_release_rejection_not_logged_witness :
  _hil_release_cmd Sample.consts Sample.scripted Sample.alice Sample.hil_part1
    (Sample.release_job "flexalloc_MOC_reserve_bob_1001_2017-05-01T10:00:00")
    (Sample.start [Sample.no_reply])
  = (Raise (NameError "resname"), Sample.start [Sample.no_reply]).
Proof.
  apply (C8_release_rejection_not_logged Sample.consts Sample.scripted Sample.alice
           Sample.hil_part1
           (Sample.release_job "flexalloc_MOC_reserve_bob_1001_2017-05-01T10:00:00")
           "flexalloc_MOC_reserve_bob_1001_2017-05-01T10:00:00");
    [by_run | by_run | left; by_run].
Defined.

Lemma C4_partition_max_time_gives_no_end_witness :
  fst (_get_hil_reservation_times Sample.consts Sample.setts Sample.lib Sample.scripted
         Sample.alice (Sample.part "2-01:30:00") (Sample.job "Unknown" "UNLIMITED")
         (Sample.start []))
  = Raise (AttributeError "datetime" "timedelta")
  /\
  fst (_get_hil_reservation_times Sample.consts Sample.setts Sample.lib Sample.scripted
         Sample.alice (Sample.part "01:30:00") (Sample.job "Unknown" "UNLIMITED")
         (Sample.start []))
  = Raise (UnboundLocalError "t_end_dt").
Proof.
  split.
  - refine (proj1 (C4_partition_max_time_gives_no_end Sample.consts Sample.setts
                     Sample.lib Sample.scripted Sample.alice (Sample.part "2-01:30:00")
                     (Sample.job "Unknown" "UNLIMITED") (Sample.start [])
                     "2017-05-01T10:00:00" "Unknown" "UNLIMITED" "2-01:30:00"
                     63629229600 _ _ _ _ _ _ _ _) "2" "01:30:00" _);
      by_run.
  - refine (proj1 (proj2 (C4_partition_max_time_gives_no_end Sample.consts Sample.setts
                     Sample.lib Sample.scripted Sample.alice (Sample.part "01:30:00")
                     (Sample.job "Unknown" "UNLIMITED") (Sample.start [])
                     "2017-05-01T10:00:00" "Unknown" "UNLIMITED" "01:30:00"
                     63629229600 _ _ _ _ _ _ _ _))
                  "01:30:00" 59926613400 "2017-05-01T10:00:00" _ _ _);
      by_run.
Defined.

Lemma C5_end_is_job_end_plus_grace_or_start_plus_default_witness :
  fst (_get_hil_reservation_times Sample.consts Sample.setts Sample.lib Sample.scripted
         Sample.alice (Sample.part "2-01:30:00")
         (Sample.job "2017-05-01T12:00:00" "02:00:00") (Sample.start []))
  = Ok ("2017-05-01T10:00:00", "2017-05-01T12:10:00")
  /\
  fst (_get_hil_reservation_times Sample.consts Sample.setts Sample.lib Sample.scripted
         Sample.alice Sample.hil_part1 (Sample.job "Unknown" "UNLIMITED")
         (Sample.start []))
  = Ok ("2017-05-01T10:00:00", "2017-05-01T11:00:00").
Proof.
  split.
  - rewrite (proj1 (C5_end_is_job_end_plus_grace_or_start_plus_default
                      Sample.consts Sample.setts Sample.lib Sample.scripted Sample.alice
                      (Sample.part "2-01:30:00")
                      (Sample.job "2017-05-01T12:00:00" "02:00:00") (Sample.start [])
                      "2017-05-01T10:00:00" "2017-05-01T12:00:00" "2017-05-01T10:00:00"
                      63629229600
                      ltac:(by_run) ltac:(by_run) ltac:(by_run) ltac:(by_run))
               63629236800 "2017-05-01T12:10:00"
               ltac:(by_run) ltac:(by_run) ltac:(by_run) ltac:(by_run) ltac:(by_run)).
    reflexivity.
  - rewrite (proj2 (C5_end_is_job_end_plus_grace_or_start_plus_default
                      Sample.consts Sample.setts Sample.lib Sample.scripted Sample.alice
                      Sample.hil_part1 (Sample.job "Unknown" "UNLIMITED") (Sample.start [])
                      "2017-05-01T10:00:00" "Unknown" "2017-05-01T10:00:00"
                      63629229600
                      ltac:(by_run) ltac:(by_run) ltac:(by_run) ltac:(by_run))
               "UNLIMITED" "UNLIMITED" "2017-05-01T11:00:00"
               ltac:(by_run) ltac:(by_run) ltac:(by_run) ltac:(by_run) ltac:(by_run)
               ltac:(by_run) ltac:(by_run) ltac:(by_run)).
    reflexivity.
Defined.

Lemma C9_finite_time_limit_sets_no_end_witness :
  _get_hil_reservation_times Sample.consts Sample.setts Sample.lib Sample.scripted
    Sample.alice Sample.hil_part1 (Sample.job "Unknown" "01:00:00") (Sample.start [])
  = (Raise (UnboundLocalError "t_end_dt"),
     emit (Log DEBUG (Text "Job has a time limit! Unsupported!")) (Sample.start [])).
Proof.
  refine (proj2 (C9_finite_time_limit_sets_no_end Sample.consts Sample.setts Sample.lib
                   Sample.scripted Sample.alice Sample.hil_part1
                   (Sample.job "Unknown" "01:00:00") (Sample.start [])
                   "2017-05-01T10:00:00" "Unknown" "01:00:00" _ _ _ _ _)
            63629229600 "2017-05-01T10:00:00" _ _);
    by_run.
Defined.

Lemma C6_partition_check_fails_and_logs_every_reason_witness :
  let run := _check_hil_partition Sample.setts Sample.scripted Sample.alice
               Sample.general (Sample.start []) in
  fst run = Ok false
  /\ events (snd run)
     = [ Log INFO (Text "Partition name `general` does not match `hil_*`");
         Log INFO (Text "Partition `general` state (`DOWN`) is not UP");
         Log INFO (Text "Partition `general` is the default partition, cannot be used for HIL");
         Log INFO (Text "Partition `general` not exclusive to `alice`, cannot be used for HIL") ]
  /\ mgr (snd run) = [].
Proof.
  exact (C6_partition_check_fails_and_logs_every_reason Sample.setts Sample.scripted
           Sample.alice Sample.general (Sample.start [])
           "general" "DOWN" "YES" "NO" "NO"
           ltac:(by_run) ltac:(intros _; by_run) ltac:(intros _; by_run)
           ltac:(intros _; by_run) ltac:(intros _; by_run)).
Defined.

Lemma C7_create_queries_first_and_skips_when_present_witness :
  calls (events (snd (_create_hil_reservation Sample.consts Sample.setts Sample.lib
                        Sample.scripted "reserve" Sample.alice Sample.hil_part1
                        (Sample.job "Unknown" "UNLIMITED")
                        (Sample.start [Sample.failure "Unable to contact slurm controller"]))))
  = [query "flexalloc_MOC_reserve_alice_1000_2017-05-01T10:00:00"]
  /\
  calls (events (snd (_create_hil_reservation Sample.consts Sample.setts Sample.lib
                        Sample.scripted "reserve" Sample.alice Sample.hil_part1
                        (Sample.job "Unknown" "UNLIMITED")
                        (Sample.start
                           [Sample.not_found "flexalloc_MOC_reserve_alice_1000_2017-05-01T10:00:00";
                            Sample.no_reply]))))
  = [query "flexalloc_MOC_reserve_alice_1000_2017-05-01T10:00:00";
     creation Sample.consts "flexalloc_MOC_reserve_alice_1000_2017-05-01T10:00:00"
       Sample.alice "2017-05-01T10:00:00" "2017-05-01T11:00:00"].
Proof.
  split.
  - destruct (C7_create_queries_first_and_skips_when_present Sample.consts Sample.setts
                Sample.lib Sample.scripted "reserve" Sample.alice Sample.hil_part1
                (Sample.job "Unknown" "UNLIMITED")
                (Sample.start [Sample.failure "Unable to contact slurm controller"])
                "2017-05-01T10:00:00" "2017-05-01T11:00:00" ltac:(by_run))
      as [Hpresent _].
    destruct (Hpresent ltac:(by_run)) as (_ & Hcalls & _). exact Hcalls.
  - destruct (C7_create_queries_first_and_skips_when_present Sample.consts Sample.setts
                Sample.lib Sample.scripted "reserve" Sample.alice Sample.hil_part1
                (Sample.job "Unknown" "UNLIMITED")
                (Sample.start
                   [Sample.not_found "flexalloc_MOC_reserve_alice_1000_2017-05-01T10:00:00";
                    Sample.no_reply])
                "2017-05-01T10:00:00" "2017-05-01T11:00:00" ltac:(by_run))
      as [_ Habsent].
    destruct (Habsent ltac:(by_run)) as (_ & Hcalls). exact Hcalls.
Defined.

(** The two reservations of the scenario: start 2017-05-01T10:00:00, no
    time limit, no partition maximum, default duration of one hour. *)
Lemma C10_release_window_is_reserve_window_witness :
  created_windows
    (calls (events (snd (_hil_reserve_cmd Sample.consts Sample.setts Sample.lib
                           Sample.scripted Sample.alice Sample.hil_part1
                           (Sample.job "Unknown" "UNLIMITED")
                           (Sample.start
                              [Sample.not_found "reserve"; Sample.no_reply;
                               Sample.not_found "release"; Sample.no_reply])))))
  = [ ("flexalloc_MOC_reserve_alice_1000_2017-05-01T10:00:00",
       "2017-05-01T10:00:00", "2017-05-01T11:00:00");
      ("flexalloc_MOC_release_alice_1000_2017-05-01T10:00:00",
       "2017-05-01T10:00:00", "2017-05-01T11:00:00") ].
Proof.
  destruct (C10_release_window_is_reserve_window Sample.consts Sample.setts Sample.lib
              Sample.scripted Sample.alice Sample.hil_part1
              (Sample.job "Unknown" "UNLIMITED")
              (Sample.start
                 [Sample.not_found "reserve"; Sample.no_reply;
                  Sample.not_found "release"; Sample.no_reply])
              "2017-05-01T10:00:00" "2017-05-01T11:00:00" ltac:(by_run))
    as (_ & _ & Hboth).
  rewrite (Hboth ltac:(by_run) ltac:(by_run)). by_run.
Defined.

(** C10, as stated, fails in that scenario: the release reservation is
    created with the start 10:00:00, before the end 11:00:00 of the
    reserve reservation. *)
Lemma C10_release_starts_before_reserve_ends :
  release_after_reserve Sample.consts Sample.lib
    (calls (events (snd (_hil_reserve_cmd Sample.consts Sample.setts Sample.lib
                           Sample.scripted Sample.alice Sample.hil_part1
                           (Sample.job "Unknown" "UNLIMITED")
                           (Sample.start
                              [Sample.not_found "reserve"; Sample.no_reply;
                               Sample.not_found "release"; Sample.no_reply])))))
  = false.
Proof. by_run. Qed.


(** ** Further properties *)

(** The window calculator never reaches the resource manager. *)
Lemma window_never_calls_manager
  (C : constants) (S : settings) (L : library) (M : manager)
  (env_dict : environment) (pdata_dict jobdata_dict : dict) (w : world M) :
  let run := _get_hil_reservation_times C S L M env_dict pdata_dict jobdata_dict w in
  calls (events (snd run)) = calls (events w) /\ mgr (snd run) = mgr w.
Proof. cbv zeta. apply log_only_frame, times_log_only. Qed.

(** The names of the reserve and of the release reservation of one job
    differ in the role token only. *)
Lemma reservation_names_differ_in_token_only
  (C : constants) (env_dict : environment) (t_start_s : string) :
  exists tail,
    forall name_token,
      _get_hil_reservation_name C name_token env_dict t_start_s
      = HIL_RESERVATION_PREFIX C +:+ "_" +:+ name_token +:+ tail.
Proof.
  exists ("_" +:+ username env_dict +:+ "_" +:+ job_uid env_dict +:+ "_" +:+ t_start_s).
  intros name_token. apply reservation_name_shape.
Qed.

(** The reserve scenario: job [hil_reserve] in partition [hil_part1]
    (prefix [hil_], UP, not default, not shared, exclusive), start
    2017-05-01T10:00:00, no time limit, no partition maximum, default
    duration 3600 s.  The partition passes, the command is recognised,
    and both reservations are created with the end 2017-05-01T11:00:00
    and the same start-timestamp token in their names. *)
Lemma scenario_reserve :
  fst (_check_hil_partition Sample.setts Sample.scripted Sample.alice Sample.hil_part1
         (Sample.start []))
  = Ok true
  /\ fst (_check_hil_command Sample.consts Sample.scripted Sample.alice (Sample.start []))
     = Ok (Some "hil_reserve")
  /\ calls (events (snd (_hil_reserve_cmd Sample.consts Sample.setts Sample.lib
                           Sample.scripted Sample.alice Sample.hil_part1
                           (Sample.job "Unknown" "UNLIMITED")
                           (Sample.start
                              [Sample.not_found "reserve"; Sample.no_reply;
                               Sample.not_found "release"; Sample.no_reply]))))
     = [ exec_scontrol_show_cmd "reservation"
           "flexalloc_MOC_reserve_alice_1000_2017-05-01T10:00:00";
         create_slurm_reservation
           "flexalloc_MOC_reserve_alice_1000_2017-05-01T10:00:00" "alice"
           "2017-05-01T10:00:00" "2017-05-01T11:00:00" None
           "maint,ignore_jobs" "HIL" false;
         exec_scontrol_show_cmd "reservation"
           "flexalloc_MOC_release_alice_1000_2017-05-01T10:00:00";
         create_slurm_reservation
           "flexalloc_MOC_release_alice_1000_2017-05-01T10:00:00" "alice"
           "2017-05-01T10:00:00" "2017-05-01T11:00:00" None
           "maint,ignore_jobs" "HIL" false ].
Proof. repeat split; by_run. Qed.



(** ** The prolog environment *)

(** What [_get_prolog_environment] returns, whatever the process
    environment: a dictionary with the seven keys of [env_map] and no
    other, each key holding the value of its variable, [None] when the
    variable is not set. *)
Lemma prolog_environment_has_seven_keys (environ : gmap string string) :
  size (_get_prolog_environment environ) = 7%nat
  /\ (forall key var,
        In (key, var) env_map ->
        _get_prolog_environment environ !! key = Some (environ !! var))
  /\ (forall key,
        ~ In key (map fst env_map) -> _get_prolog_environment environ !! key = None).
Proof.
  split; [|split].
  - reflexivity.
  - intros key var Hin. cbn in Hin.
    repeat (destruct Hin as [Hin|Hin]; [injection Hin as <- <-; reflexivity|]).
    contradiction.
  - intros key Hkey. unfold _get_prolog_environment.
    apply not_elem_of_list_to_map_1. rewrite <- list_fmap_compose.
    intros Hin. apply Hkey. apply list_elem_of_In.
    exact Hin.
Qed.

(** When the seven variables are set, the dictionary holds their
    values, whatever else the process environment contains; it is never
    empty, so that the emptiness test of [main] on it cannot succeed. *)
Lemma prolog_environment_of_set_variables
  (env_dict : environment) (environ : gmap string string) :
  environ_of env_dict ⊆ environ ->
  _get_prolog_environment environ = as_dict env_dict
  /\ nonempty (_get_prolog_environment environ) = true.
Proof.
  intros Hset.
  assert (Hget : forall var value,
             environ_of env_dict !! var = Some value -> environ !! var = Some value)
    by (intros var value Hvar; exact (lookup_weaken _ _ _ _ Hvar Hset)).
  split; [|reflexivity].
  unfold _get_prolog_environment, as_dict, env_map. cbn [map fst snd].
  rewrite (Hget "SLURM_JOB_NAME" (jobname env_dict) eq_refl),
    (Hget "SLURM_JOB_PARTITION" (partition env_dict) eq_refl),
    (Hget "SLURM_JOB_USER" (username env_dict) eq_refl),
    (Hget "SLURM_JOB_ID" (job_id env_dict) eq_refl),
    (Hget "SLURM_JOB_UID" (job_uid env_dict) eq_refl),
    (Hget "SLURM_JOB_ACCOUNT" (job_account env_dict) eq_refl),
    (Hget "SLURM_JOB_NODELIST" (nodelist env_dict) eq_refl).
  reflexivity.
Qed.

Lemma prolog_environment_of_set_variables_witness :
  _get_prolog_environment
    (<["HOME" := "/root"]> (<["PATH" := "/usr/bin"]> (environ_of Sample.alice)))
  = as_dict Sample.alice.
Proof.
  apply (prolog_environment_of_set_variables Sample.alice
           (<["HOME" := "/root"]> (<["PATH" := "/usr/bin"]> (environ_of Sample.alice)))).
  apply map_subseteq_spec. intros var value Hvar.
  rewrite !lookup_insert_ne; [exact Hvar | |];
    intros <-; vm_compute in Hvar; discriminate Hvar.
Defined.

(** ** The user's HIL directory *)

(** [_get_user_hil_subdir] returns a path that ends with
    [USER_HIL_SUBDIR]; when [USER_HIL_SUBDIR] is an absolute path the
    result is that path, for every user. *)
Lemma user_hil_subdir_ends_with_subdir
  (expanduser : string -> string) (USER_HIL_SUBDIR : string) (env_dict : environment) :
  (exists front,
      _get_user_hil_subdir expanduser USER_HIL_SUBDIR env_dict
      = front +:+ USER_HIL_SUBDIR)
  /\ (startswith USER_HIL_SUBDIR "/" = true ->
      _get_user_hil_subdir expanduser USER_HIL_SUBDIR env_dict = USER_HIL_SUBDIR).
Proof.
  unfold _get_user_hil_subdir, path_join. cbv zeta.
  destruct (startswith USER_HIL_SUBDIR "/").
  - split; [now exists EmptyString | reflexivity].
  - split; [|discriminate].
    destruct (_ || _).
    + now eexists.
    + exists (expanduser ("~" +:+ username env_dict) +:+ "/").
      now rewrite append_assoc.
Qed.

(** ** More on reservation names *)

Lemma append_cons (x : ascii) (a b : string) : String x a +:+ b = String x (a +:+ b).
Proof. reflexivity. Qed.

Lemma append_length (a b : string) :
  String.length (a +:+ b) = (String.length a + String.length b)%nat.
Proof.
  induction a as [|x a IH]; [reflexivity|].
  rewrite append_cons. cbn [String.length]. now rewrite IH.
Qed.

Lemma append_cancel_l (p a b : string) : p +:+ a = p +:+ b -> a = b.
Proof.
  induction p as [|x p IH]; [trivial|].
  rewrite !append_cons. intros H. injection H as H. now apply IH.
Qed.

Lemma append_cancel_r (a b t : string) : a +:+ t = b +:+ t -> a = b.
Proof.
  revert b. induction a as [|x a IH]; intros [|y b] H.
  - reflexivity.
  - change (t = String y (b +:+ t)) in H.
    apply (f_equal String.length) in H. cbn [String.length] in H.
    rewrite append_length in H. lia.
  - change (String x (a +:+ t) = t) in H.
    apply (f_equal String.length) in H. cbn [String.length] in H.
    rewrite append_length in H. lia.
  - rewrite !append_cons in H. injection H as -> H. f_equal. now apply IH.
Qed.

Lemma truthy_append_cons (a b : string) (c : ascii) : truthy (a +:+ String c b) = true.
Proof. now destruct a. Qed.

(** Two role tokens never give the same name to one job: the reserve
    and the release reservation of a job are distinct reservations. *)
Lemma names_differ_when_tokens_differ
  (C : constants) (token1 token2 : string) (env_dict : environment) (t_start_s : string) :
  token1 <> token2 ->
  _get_hil_reservation_name C token1 env_dict t_start_s
  <> _get_hil_reservation_name C token2 env_dict t_start_s.
Proof.
  intros Hne Heq. apply Hne.
  rewrite !reservation_name_shape in Heq.
  apply append_cancel_l, append_cancel_l in Heq.
  now apply append_cancel_r in Heq.
Qed.

Lemma names_differ_when_tokens_differ_witness :
  _get_hil_reservation_name Sample.consts "reserve" Sample.alice "2017-05-01T10:00:00"
  <> _get_hil_reservation_name Sample.consts "release" Sample.alice "2017-05-01T10:00:00".
Proof.
  apply (names_differ_when_tokens_differ Sample.consts "reserve" "release" Sample.alice
           "2017-05-01T10:00:00").
  discriminate.
Defined.

(** A name built for a user and a role token is not empty and contains
    both the username and the token: with the reserve token it meets
    the two substring tests the release command makes for that user. *)
Lemma constructed_name_contains_user_and_token
  (C : constants) (name_token : string) (env_dict : environment) (t_start_s : string) :
  let resname := _get_hil_reservation_name C name_token env_dict t_start_s in
  truthy resname = true
  /\ contains (username env_dict) resname = true
  /\ contains name_token resname = true.
Proof.
  cbv zeta. rewrite reservation_name_shape. split; [|split].
  - apply truthy_append_cons.
  - apply contains_true_iff.
    exists (HIL_RESERVATION_PREFIX C +:+ "_" +:+ name_token +:+ "_"),
      ("_" +:+ job_uid env_dict +:+ "_" +:+ t_start_s).
    now rewrite !append_assoc.
  - apply contains_true_iff.
    exists (HIL_RESERVATION_PREFIX C +:+ "_"),
      ("_" +:+ username env_dict +:+ "_" +:+ job_uid env_dict +:+ "_" +:+ t_start_s).
    now rewrite !append_assoc.
Qed.

(** ** More on the deletion guard *)

(** The guard is a prefix test: it lets through every name that
    continues the reservation prefix and the invoking username, whatever
    follows them, so also a name in which a longer username follows the
    prefix. *)
Lemma delete_guard_accepts_every_continuation
  (C : constants) (M : manager) (env_dict : environment) (pdata_dict jobdata_dict : dict)
  (rest : string) (w : world M) :
  let resname := HIL_RESERVATION_PREFIX C +:+ username env_dict +:+ rest in
  let run := _delete_hil_reservation C M env_dict pdata_dict jobdata_dict resname w in
  calls (events (snd run))
  = (calls (events w) ++ [delete_slurm_reservation resname false])%list.
Proof.
  cbv zeta. unfold _delete_hil_reservation, log_info, startswith.
  rewrite run_bind_log, prefix_append_cancel.
  replace (String.prefix (username env_dict) (username env_dict +:+ rest)) with true
    by (symmetry; apply prefix_append).
  cbn [negb]. rewrite run_bind_helper. cbn [ret snd events].
  rewrite emit_events, !calls_app. cbn. now rewrite app_nil_r.
Qed.

(** ** More on the partition validator *)

(** The validator reads the partition name and the attributes of the
    enabled checks, and nothing else: two snapshots that agree on these
    are treated alike, whatever their other attributes, present or
    not. *)
Lemma validator_reads_only_enabled_attributes
  (S : settings) (M : manager) (env_dict : environment) (pdata_dict pdata_dict' : dict)
  (w : world M) :
  pdata_dict !! "PartitionName" = pdata_dict' !! "PartitionName" ->
  (RES_CHECK_PARTITION_STATE S = true ->
   pdata_dict !! "State" = pdata_dict' !! "State") ->
  (RES_CHECK_DEFAULT_PARTITION S = true ->
   pdata_dict !! "Default" = pdata_dict' !! "Default") ->
  (RES_CHECK_SHARED_PARTITION S = true ->
   pdata_dict !! "Shared" = pdata_dict' !! "Shared") ->
  (RES_CHECK_EXCLUSIVE_PARTITION S = true ->
   pdata_dict !! "ExclusiveUser" = pdata_dict' !! "ExclusiveUser") ->
  _check_hil_partition S M env_dict pdata_dict w
  = _check_hil_partition S M env_dict pdata_dict' w.
Proof.
  intros Hname Hstate Hdefault Hshared Hexclusive.
  unfold _check_hil_partition, bind, subscript.
  rewrite Hname.
  destruct (RES_CHECK_PARTITION_STATE S); [rewrite (Hstate eq_refl)|];
    (destruct (RES_CHECK_DEFAULT_PARTITION S); [rewrite (Hdefault eq_refl)|]);
    (destruct (RES_CHECK_SHARED_PARTITION S); [rewrite (Hshared eq_refl)|]);
    (destruct (RES_CHECK_EXCLUSIVE_PARTITION S); [rewrite (Hexclusive eq_refl)|]);
    reflexivity.
Qed.

Lemma validator_reads_only_enabled_attributes_witness :
  _check_hil_partition Sample.setts Sample.scripted Sample.alice Sample.hil_part1
    (Sample.start [])
  = _check_hil_partition Sample.setts Sample.scripted Sample.alice
      (delete "MaxTime" Sample.hil_part1) (Sample.start []).
Proof.
  apply (validator_reads_only_enabled_attributes Sample.setts Sample.scripted
           Sample.alice Sample.hil_part1 (delete "MaxTime" Sample.hil_part1)
           (Sample.start []));
    try intros _; by_run.
Defined.

(** The validator returns a verdict exactly when the snapshot holds the
    partition name and the attribute of every enabled check; otherwise
    it ends with the [KeyError] of an attribute the snapshot lacks. *)
Lemma validator_returns_iff_attributes_present
  (S : settings) (M : manager) (env_dict : environment) (pdata_dict : dict)
  (w : world M) :
  ((exists valid, fst (_check_hil_partition S M env_dict pdata_dict w) = Ok valid)
   <-> is_Some (pdata_dict !! "PartitionName")
       /\ (RES_CHECK_PARTITION_STATE S = true -> is_Some (pdata_dict !! "State"))
       /\ (RES_CHECK_DEFAULT_PARTITION S = true -> is_Some (pdata_dict !! "Default"))
       /\ (RES_CHECK_SHARED_PARTITION S = true -> is_Some (pdata_dict !! "Shared"))
       /\ (RES_CHECK_EXCLUSIVE_PARTITION S = true ->
           is_Some (pdata_dict !! "ExclusiveUser")))
  /\ (forall e,
        fst (_check_hil_partition S M env_dict pdata_dict w) = Raise e ->
        exists key, e = KeyError key /\ pdata_dict !! key = None).
Proof.
  split; [split|].
  - intros [valid Hrun]. revert Hrun.
    unfold _check_hil_partition, bind, subscript, ret, raise, log_info, log.
    destruct (pdata_dict !! "PartitionName") as [pname|]; [|discriminate].
    destruct (startswith pname (HIL_PARTITION_PREFIX S)); cbn [negb];
      (destruct (RES_CHECK_PARTITION_STATE S);
       [destruct (pdata_dict !! "State") as [state|];
        [destruct (String.eqb state "UP"); cbn [negb] | discriminate]|]);
      (destruct (RES_CHECK_DEFAULT_PARTITION S);
       [destruct (pdata_dict !! "Default") as [default|];
        [destruct (String.eqb default "YES") | discriminate]|]);
      (destruct (RES_CHECK_SHARED_PARTITION S);
       [destruct (pdata_dict !! "Shared") as [shared|];
        [destruct (String.eqb shared "NO"); cbn [negb] | discriminate]|]);
      (destruct (RES_CHECK_EXCLUSIVE_PARTITION S);
       [destruct (pdata_dict !! "ExclusiveUser") as [exclusive|];
        [|discriminate]|]);
      intros _; repeat split; intros; eauto; discriminate.
  - intros ([pname Hname] & Hstate & Hdefault & Hshared & Hexclusive).
    unfold _check_hil_partition, bind, subscript, ret, raise, log_info, log.
    rewrite Hname.
    destruct (startswith pname (HIL_PARTITION_PREFIX S)); cbn [negb];
      (destruct (RES_CHECK_PARTITION_STATE S);
       [destruct (Hstate eq_refl) as [state ->];
        destruct (String.eqb state "UP"); cbn [negb]|]);
      (destruct (RES_CHECK_DEFAULT_PARTITION S);
       [destruct (Hdefault eq_refl) as [default ->];
        destruct (String.eqb default "YES")|]);
      (destruct (RES_CHECK_SHARED_PARTITION S);
       [destruct (Hshared eq_refl) as [shared ->];
        destruct (String.eqb shared "NO"); cbn [negb]|]);
      (destruct (RES_CHECK_EXCLUSIVE_PARTITION S);
       [destruct (Hexclusive eq_refl) as [exclusive ->];
        destruct (String.eqb exclusive "YES"); cbn [negb]|]);
      eexists; reflexivity.
  - intros e. unfold _check_hil_partition, bind, subscript, ret, raise, log_info, log.
    destruct (pdata_dict !! "PartitionName") as [pname|] eqn:Hname;
      [|intros [= <-]; eauto].
    destruct (startswith pname (HIL_PARTITION_PREFIX S)); cbn [negb];
      (destruct (RES_CHECK_PARTITION_STATE S);
       [destruct (pdata_dict !! "State") as [state|] eqn:Hstate;
        [destruct (String.eqb state "UP"); cbn [negb] | intros [= <-]; eauto]|]);
      (destruct (RES_CHECK_DEFAULT_PARTITION S);
       [destruct (pdata_dict !! "Default") as [default|] eqn:Hdefault;
        [destruct (String.eqb default "YES") | intros [= <-]; eauto]|]);
      (destruct (RES_CHECK_SHARED_PARTITION S);
       [destruct (pdata_dict !! "Shared") as [shared|] eqn:Hshared;
        [destruct (String.eqb shared "NO"); cbn [negb] | intros [= <-]; eauto]|]);
      (destruct (RES_CHECK_EXCLUSIVE_PARTITION S);
       [destruct (pdata_dict !! "ExclusiveUser") as [exclusive|] eqn:Hexclusive;
        [destruct (String.eqb exclusive "YES"); cbn [negb] | intros [= <-]; eauto]|]);
      discriminate.
Qed.

(** ** More on the reservation window *)

Lemma timedelta_seconds_Ok (n : Z) (d : timedelta) : timedelta_seconds n = Ok d -> d = n.
Proof. unfold timedelta_seconds. destruct (delta_in_range n); now intros [= <-]. Qed.

Lemma add_Ok (dt : datetime) (td : timedelta) (t : datetime) :
  add dt td = Ok t -> t = dt + td.
Proof. unfold add. destruct (in_range (dt + td)); now intros [= <-]. Qed.

Ltac run_all :=
  repeat first
    [ progress run
    | erewrite run_bind_lift_raise by (first [eassumption | reflexivity])
    | erewrite run_bind_value by reflexivity
    | erewrite run_bind_value_missing by reflexivity ].

Section Window_paths.

Context (C : constants) (S : settings) (L : library) (M : manager).

Local Abbreviation times := (_get_hil_reservation_times C S L M).

(** The window calculator returns a window on two paths only: the job
    has a defined end time (end = job end + grace period), or the job
    has no end time, no time limit, and the partition has no maximum
    time (end = start + default duration).  In both the start is the
    job's own start time. *)
Lemma window_returned_on_two_paths_only
  (env_dict : environment) (pdata_dict jobdata_dict : dict) (w : world M)
  (t_start_s t_end_s : string) :
  fst (times env_dict pdata_dict jobdata_dict w) = Ok (t_start_s, t_end_s) ->
  exists t_job_start_s t_job_end_s t_start_dt,
    jobdata_dict !! "StartTime" = Some t_job_start_s
    /\ jobdata_dict !! "EndTime" = Some t_job_end_s
    /\ strptime L t_job_start_s (SHOW_OBJ_TIME_FMT C) = Some t_start_dt
    /\ strftime L t_start_dt (RES_CREATE_TIME_FMT C) = Some t_start_s
    /\ ((contains "Unknown" t_job_end_s = false
         /\ exists t_end_dt,
             strptime L t_job_end_s (SHOW_OBJ_TIME_FMT C) = Some t_end_dt
             /\ strftime L (t_end_dt + HIL_RESERVATION_GRACE_PERIOD S)
                  (RES_CREATE_TIME_FMT C) = Some t_end_s)
        \/ (contains "Unknown" t_job_end_s = true
            /\ (exists time_limit,
                   jobdata_dict !! "TimeLimit" = Some time_limit
                   /\ contains "UNLIMITED" time_limit = true)
            /\ (exists p_max_time_s,
                   pdata_dict !! "MaxTime" = Some p_max_time_s
                   /\ contains "UNLIMITED" p_max_time_s = true)
            /\ strftime L (t_start_dt + HIL_RESERVATION_DEFAULT_DURATION S)
                 (RES_CREATE_TIME_FMT C) = Some t_end_s)).
Proof.
  intros Hrun.
  match goal with |- ?G => set (Conclusion := G) end.
  revert Hrun.
  unfold _get_hil_reservation_times, py_strptime, py_strftime, py_int,
    log_debug, log_error.
  destruct (jobdata_dict !! "StartTime") as [t_job_start_s|] eqn:Hstart;
    [|run_all; cbn [fst]; discriminate].
  destruct (jobdata_dict !! "EndTime") as [t_job_end_s|] eqn:Hend;
    [|run_all; cbn [fst]; discriminate].
  destruct (strptime L t_job_start_s (SHOW_OBJ_TIME_FMT C)) as [t_start_dt|] eqn:Hparse;
    [|run_all; cbn [fst]; discriminate].
  run_all.
  destruct (contains "Unknown" t_job_end_s) eqn:Hunknown; cbn [negb].
  - destruct (jobdata_dict !! "TimeLimit") as [time_limit|] eqn:Hlimit;
      [|run_all; cbn [fst]; discriminate].
    run_all.
    destruct (contains "UNLIMITED" time_limit) eqn:Hnolimit.
    + destruct (pdata_dict !! "MaxTime") as [p_max_time_s|] eqn:Hmax;
        [|run_all; cbn [fst]; discriminate].
      run_all.
      destruct (contains "UNLIMITED" p_max_time_s) eqn:Hnomax.
      * destruct (timedelta_seconds (HIL_RESERVATION_DEFAULT_DURATION S))
          as [duration|] eqn:Hduration; [|run_all; cbn [fst]; discriminate].
        apply timedelta_seconds_Ok in Hduration as Hd. subst duration.
        destruct (add t_start_dt (HIL_RESERVATION_DEFAULT_DURATION S))
          as [t_end_dt|] eqn:Hadd; [|run_all; cbn [fst]; discriminate].
        apply add_Ok in Hadd as Ht. subst t_end_dt.
        destruct (strftime L t_start_dt (RES_CREATE_TIME_FMT C)) eqn:Hformat;
          [|run_all; cbn [fst]; discriminate].
        destruct (strftime L (t_start_dt + HIL_RESERVATION_DEFAULT_DURATION S)
                    (RES_CREATE_TIME_FMT C)) eqn:Hformat_end;
          [|run_all; cbn [fst]; discriminate].
        run_all. cbn [fst]. intros [= <- <-]. subst Conclusion.
        exists t_job_start_s, t_job_end_s, t_start_dt.
        repeat split; try assumption. right. eauto 10.
      * destruct (split "-" p_max_time_s) as [|hms [|days [|more rest]]].
        -- run_all.
           destruct (strftime L t_start_dt (RES_CREATE_TIME_FMT C)) eqn:Hformat;
             run_all; cbn [fst]; discriminate.
        -- destruct (strptime L hms (SHOW_PARTITION_MAXTIME_HMS_FMT C)) eqn:Hparse_hms;
             run_all; [|cbn [fst]; discriminate].
           destruct (strftime L t_start_dt (RES_CREATE_TIME_FMT C)) eqn:Hformat;
             run_all; cbn [fst]; discriminate.
        -- run_all. cbn [fst]. discriminate.
        -- run_all.
           destruct (strftime L t_start_dt (RES_CREATE_TIME_FMT C)) eqn:Hformat;
             run_all; cbn [fst]; discriminate.
    + run_all.
      destruct (strftime L t_start_dt (RES_CREATE_TIME_FMT C)) eqn:Hformat;
        run_all; cbn [fst]; discriminate.
  - destruct (strptime L t_job_end_s (SHOW_OBJ_TIME_FMT C)) as [t_end_dt|] eqn:Hparse_end;
      [|run_all; cbn [fst]; discriminate].
    destruct (timedelta_seconds (HIL_RESERVATION_GRACE_PERIOD S))
      as [grace|] eqn:Hgrace; [|run_all; cbn [fst]; discriminate].
    apply timedelta_seconds_Ok in Hgrace as Hg. subst grace.
    destruct (add t_end_dt (HIL_RESERVATION_GRACE_PERIOD S)) as [t|] eqn:Hadd;
      [|run_all; cbn [fst]; discriminate].
    apply add_Ok in Hadd as Ht. subst t.
    destruct (strftime L t_start_dt (RES_CREATE_TIME_FMT C)) eqn:Hformat;
      [|run_all; cbn [fst]; discriminate].
    destruct (strftime L (t_end_dt + HIL_RESERVATION_GRACE_PERIOD S)
                (RES_CREATE_TIME_FMT C)) eqn:Hformat_end;
      [|run_all; cbn [fst]; discriminate].
    run_all. cbn [fst]. intros [= <- <-]. subst Conclusion.
    exists t_job_start_s, t_job_end_s, t_start_dt.
    repeat split; try assumption. left. eauto 10.
Qed.

(** The window calculator reads the job's start and end time first: a
    job record without [StartTime] or without [EndTime] ends it with
    [KeyError], a start time that does not parse with [ValueError],
    each before anything is logged. *)
Lemma window_rejects_incomplete_job_record
  (env_dict : environment) (pdata_dict jobdata_dict : dict) (w : world M) :
  (jobdata_dict !! "StartTime" = None ->
   times env_dict pdata_dict jobdata_dict w = (Raise (KeyError "StartTime"), w))
  /\ (is_Some (jobdata_dict !! "StartTime") ->
      jobdata_dict !! "EndTime" = None ->
      times env_dict pdata_dict jobdata_dict w = (Raise (KeyError "EndTime"), w))
  /\ (forall t_job_start_s,
        jobdata_dict !! "StartTime" = Some t_job_start_s ->
        is_Some (jobdata_dict !! "EndTime") ->
        strptime L t_job_start_s (SHOW_OBJ_TIME_FMT C) = None ->
        times env_dict pdata_dict jobdata_dict w = (Raise ValueError, w)).
Proof.
  unfold _get_hil_reservation_times, py_strptime.
  split; [|split].
  - intros Hstart. now run.
  - intros [t_job_start_s Hstart] Hend. now run.
  - intros t_job_start_s Hstart [t_job_end_s Hend] Hparse. now run.
Qed.

(** When the window cannot be computed, the reserve command ends with
    the exception of the window calculator before it reaches the
    resource manager: nothing is queried, nothing is created. *)
Lemma reserve_without_window_calls_nothing
  (env_dict : environment) (pdata_dict jobdata_dict : dict) (w : world M) (e : exn) :
  fst (times env_dict pdata_dict jobdata_dict w) = Raise e ->
  let run := _hil_reserve_cmd C S L M env_dict pdata_dict jobdata_dict w in
  fst run = Raise e
  /\ calls (events (snd run)) = calls (events w)
  /\ mgr (snd run) = mgr w.
Proof.
  intros Htimes. cbv zeta.
  destruct (log_only_frame _ w (times_log_only C S L M env_dict pdata_dict jobdata_dict))
    as [Hcalls Hmgr].
  unfold _hil_reserve_cmd, _create_hil_reservation, bind.
  destruct (_get_hil_reservation_times C S L M env_dict pdata_dict jobdata_dict w)
    as [[window|e'] w1].
  - discriminate Htimes.
  - cbn [fst snd] in *. now injection Htimes as ->.
Qed.

(** With a window, the reserve command returns normally whatever the
    manager answers, and its calls are: the query for the reserve name,
    the creation of the reserve reservation unless the query is
    recognised as present, the query for the release name, and the
    creation of the release reservation unless that query is recognised
    as present.  An error reported by the first creation does not stop
    the second. *)
Lemma reserve_calls
  (env_dict : environment) (pdata_dict jobdata_dict : dict) (w : world M)
  (t_start_s t_end_s : string) :
  fst (times env_dict pdata_dict jobdata_dict w) = Ok (t_start_s, t_end_s) ->
  let run := _hil_reserve_cmd C S L M env_dict pdata_dict jobdata_dict w in
  let reserve_name := _get_hil_reservation_name C (HIL_RESERVE C) env_dict t_start_s in
  let release_name := _get_hil_reservation_name C (HIL_RELEASE C) env_dict t_start_s in
  let reserve_creation := creation C reserve_name env_dict t_start_s t_end_s in
  let release_creation := creation C release_name env_dict t_start_s t_end_s in
  let shown1 := respond M (query reserve_name) (mgr w) in
  let present1 := recognised_as_present (fst shown1) in
  let state1 :=
    if present1 then snd shown1 else snd (respond M reserve_creation (snd shown1)) in
  let shown2 := respond M (query release_name) state1 in
  let present2 := recognised_as_present (fst shown2) in
  fst run = Ok tt
  /\ calls (events (snd run))
     = (calls (events w)
        ++ query reserve_name :: (if present1 then [] else [reserve_creation])
        ++ query release_name :: (if present2 then [] else [release_creation]))%list
  /\ mgr (snd run)
     = if present2 then snd shown2 else snd (respond M release_creation (snd shown2)).
Proof.
  intros Htimes. cbv zeta.
  destruct (create_calls C S L M (HIL_RESERVE C) _ _ _ _ _ _ Htimes)
    as (err1 & w1 & Hrun1 & Hcalls1 & Hmgr1).
  assert (Htimes1 : fst (times env_dict pdata_dict jobdata_dict w1)
                    = Ok (t_start_s, t_end_s))
    by now rewrite (times_value_fixed C S L M _ _ _ w1 w).
  destruct (create_calls C S L M (HIL_RELEASE C) _ _ _ _ _ _ Htimes1)
    as (err2 & w2 & Hrun2 & Hcalls2 & Hmgr2).
  assert (Hrun : _hil_reserve_cmd C S L M env_dict pdata_dict jobdata_dict w
                 = (Ok tt, w2)).
  { unfold _hil_reserve_cmd, _log_hil_reservation.
    rewrite (run_bind_eq M _ _ _ _ _ Hrun1). cbv beta iota.
    rewrite run_bind_ret, (run_bind_eq M _ _ _ _ _ Hrun2). reflexivity. }
  rewrite Hrun. cbn [fst snd]. clear Hrun Hrun1 Hrun2.
  rewrite Hcalls2, Hmgr2, Hcalls1, <- app_assoc. clear Hcalls2 Hmgr2 Hcalls1.
  revert Hmgr1.
  destruct (recognised_as_present
              (fst (respond M
                      (query (_get_hil_reservation_name C (HIL_RESERVE C) env_dict t_start_s))
                      (mgr w))));
    intros ->;
    (split; [reflexivity|]); (split; [|reflexivity]);
    f_equal; cbn [app]; f_equal;
    destruct (recognised_as_present _); reflexivity.
Qed.

End Window_paths.

(** ** The entry point *)

Lemma manager_calls_app (t1 t2 : list main_event) :
  manager_calls (t1 ++ t2) = (manager_calls t1 ++ manager_calls t2)%list.
Proof. unfold manager_calls. apply flat_map_app. Qed.

Lemma manager_calls_prolog (evs : list event) :
  manager_calls (map In_prolog evs) = calls evs.
Proof.
  induction evs as [|[lvl msg|c r] evs IH]; cbn; [reflexivity| exact IH |].
  f_equal. exact IH.
Qed.

Section Entry_facts.

Context (C : constants) (S : settings) (L : library) (M : manager) (F : fetchers M).
Context (LOGFILE : string).

Lemma call_prolog_run {A} (m : prog M A) (mw : main_world M) :
  call_prolog M m mw
  = (outcome_of (fst (m (Build_world M [] (manager_state mw)))),
     Build_main_world M
       (trace mw ++ map In_prolog (events (snd (m (Build_world M [] (manager_state mw))))))
       (mgr (snd (m (Build_world M [] (manager_state mw)))))).
Proof.
  unfold call_prolog. destruct (m _) as [[a|e] w]; reflexivity.
Qed.

Lemma top_bind_returned {A B} (m : top M A) (k : A -> top M B) mw a mw' :
  m mw = (Returned a, mw') -> top_bind M m k mw = k a mw'.
Proof. intros H. unfold top_bind. now rewrite H. Qed.

Lemma top_bind_uncaught {A B} (m : top M A) (k : A -> top M B) mw e mw' :
  m mw = (Uncaught e, mw') -> top_bind M m k mw = (Uncaught e, mw').
Proof. intros H. unfold top_bind. now rewrite H. Qed.













End Entry_facts.

Section Entry_quiet.

Context (C : constants) (S : settings) (L : library) (M : manager) (F : fetchers M).
Context (LOGFILE : string).




End Entry_quiet.

Section Entry_runs.

Context (C : constants) (S : settings) (L : library) (M : manager) (F : fetchers M).
Context (LOGFILE : string).

Lemma run_record {B} (e : main_event) (k : unit -> top M B) (mw : main_world M) :
  top_bind M (record M e) k mw
  = k tt (Build_main_world M (trace mw ++ [e]) (manager_state mw)).
Proof. reflexivity. Qed.

Lemma run_fetch_partition {B} name (k : list dict -> top M B) (mw : main_world M) :
  top_bind M (fetch_partition M F name) k mw
  = k (get_partition_data F name (manager_state mw))
      (Build_main_world M
         (trace mw ++ [Got_partition_data name
                         (get_partition_data F name (manager_state mw))])
         (manager_state mw)).
Proof. reflexivity. Qed.

Lemma run_fetch_job {B} name (k : list dict -> top M B) (mw : main_world M) :
  top_bind M (fetch_job M F name) k mw
  = k (get_job_data F name (manager_state mw))
      (Build_main_world M
         (trace mw ++ [Got_job_data name (get_job_data F name (manager_state mw))])
         (manager_state mw)).
Proof. reflexivity. Qed.

Lemma run_first_item {A B} (x : A) (l : list A) (k : A -> top M B) (mw : main_world M) :
  top_bind M (first_item M (x :: l)) k mw = k x mw.
Proof. reflexivity. Qed.

Lemma run_first_item_none {A B} (k : A -> top M B) (mw : main_world M) :
  top_bind M (first_item M []) k mw = (Uncaught IndexError, mw).
Proof. reflexivity. Qed.

Lemma run_call_prolog {A B} (m : prog M A) (k : A -> top M B) (mw : main_world M) :
  top_bind M (call_prolog M m) k mw
  = let inner := m (Build_world M [] (manager_state mw)) in
    let mw' := Build_main_world M (trace mw ++ map In_prolog (events (snd inner)))
                 (mgr (snd inner)) in
    match fst inner with
    | Ok a => k a mw'
    | Raise e => (Uncaught (Raised e), mw')
    end.
Proof.
  unfold top_bind. rewrite call_prolog_run. cbv zeta.
  destruct (fst (m _)); reflexivity.
Qed.

Lemma nonempty_empty {V} : nonempty (∅ : gmap string V) = false.
Proof. reflexivity. Qed.

(** The start of [main] when a flag is given: the log is opened and
    the processing begins. *)
Lemma main_with_flag (args : arguments) (env_dict : environment) (mw : main_world M) :
  hil_prolog args = true \/ hil_epilog args = true ->
  main C S L M F LOGFILE args env_dict mw
  = main_process C S L M F args env_dict
      (Build_main_world M
         (trace mw ++ [Log_init "hil_slurmctld.prolog" LOGFILE DEBUG])
         (manager_state mw)).
Proof.
  intros Hflag. unfold main. rewrite run_record.
  destruct (hil_prolog args); [reflexivity|].
  destruct Hflag as [Hflag|Hflag]; [discriminate Hflag|]. now rewrite Hflag.
Qed.

(** When the manager shows no record at all for the partition, or for
    the job, [main] ends with the [IndexError] of the subscript [[0]]:
    the case is neither tested nor logged. *)
Theorem main_without_record_raises_IndexError
  (args : arguments) (env_dict : environment) (mw : main_world M) :
  hil_prolog args = true \/ hil_epilog args = true ->
  (get_partition_data F (partition env_dict) (manager_state mw) = [] ->
   main C S L M F LOGFILE args env_dict mw
   = (Uncaught IndexError,
      Build_main_world M
        (trace mw ++ [Log_init "hil_slurmctld.prolog" LOGFILE DEBUG;
                      Got_partition_data (partition env_dict) []])
        (manager_state mw)))
  /\ (get_partition_data F (partition env_dict) (manager_state mw) <> [] ->
      get_job_data F (job_id env_dict) (manager_state mw) = [] ->
      fst (main C S L M F LOGFILE args env_dict mw) = Uncaught IndexError).
Proof.
  intros Hflag. rewrite (main_with_flag _ _ _ Hflag). unfold main_process.
  rewrite run_fetch_partition. cbn [manager_state trace]. split.
  - intros ->. rewrite run_first_item_none. now rewrite <- app_assoc.
  - intros Hpartition Hjob.
    destruct (get_partition_data F _ _) as [|pdata_dict rest]; [contradiction|].
    rewrite run_first_item, run_fetch_job. cbn [manager_state trace].
    rewrite Hjob. now rewrite run_first_item_none.
Qed.

(** When the first record shown for the partition or for the job is
    empty, [main] logs the fact with both records and returns: the
    partition is not validated and the manager is not called. *)
Theorem main_with_empty_record_returns
  (args : arguments) (env_dict : environment) (mw : main_world M)
  (pdata_dict jobdata_dict : dict) (more_partitions more_jobs : list dict) :
  hil_prolog args = true \/ hil_epilog args = true ->
  get_partition_data F (partition env_dict) (manager_state mw)
  = pdata_dict :: more_partitions ->
  get_job_data F (job_id env_dict) (manager_state mw) = jobdata_dict :: more_jobs ->
  pdata_dict = ∅ \/ jobdata_dict = ∅ ->
  main C S L M F LOGFILE args env_dict mw
  = (Returned tt,
     Build_main_world M
       (trace mw ++
        [Log_init "hil_slurmctld.prolog" LOGFILE DEBUG;
         Got_partition_data (partition env_dict) (pdata_dict :: more_partitions);
         Got_job_data (job_id env_dict) (jobdata_dict :: more_jobs);
         In_prolog (Log DEBUG (Text "One of pdata_dict, jobdata_dict, or env_dict is empty"));
         Log_object DEBUG "Job data" jobdata_dict;
         Log_object DEBUG "P   data" pdata_dict])
       (manager_state mw)).
Proof.
  intros Hflag Hpartition Hjob Hempty.
  rewrite (main_with_flag _ _ _ Hflag). unfold main_process.
  rewrite run_fetch_partition. cbn [manager_state trace].
  rewrite Hpartition, run_first_item, run_fetch_job. cbn [manager_state trace].
  rewrite Hjob, run_first_item.
  assert (Htest : negb (nonempty pdata_dict) || negb (nonempty jobdata_dict)
                  || negb (nonempty (as_dict env_dict)) = true).
  { destruct Hempty as [-> | ->]; rewrite nonempty_empty; cbn [negb orb];
      [reflexivity | now rewrite orb_true_r]. }
  rewrite Htest, run_call_prolog. cbv zeta. unfold log_debug, log.
  cbn [fst snd events mgr emit app map]. rewrite !run_record.
  unfold record. cbn [trace manager_state].
  now rewrite <- !app_assoc.
Qed.

Lemma as_dict_nonempty (env_dict : environment) : nonempty (as_dict env_dict) = true.
Proof. destruct env_dict. vm_compute. reflexivity. Qed.

(** [main] up to the verdict of the partition validator. *)
Lemma main_to_validation
  (args : arguments) (env_dict : environment) (mw : main_world M)
  (pdata_dict jobdata_dict : dict) (more_partitions more_jobs : list dict) (valid : bool) :
  hil_prolog args = true \/ hil_epilog args = true ->
  get_partition_data F (partition env_dict) (manager_state mw)
  = pdata_dict :: more_partitions ->
  get_job_data F (job_id env_dict) (manager_state mw) = jobdata_dict :: more_jobs ->
  nonempty pdata_dict = true ->
  nonempty jobdata_dict = true ->
  fst (_check_hil_partition S M env_dict pdata_dict (Build_world M [] (manager_state mw)))
  = Ok valid ->
  exists mw',
    manager_calls (trace mw') = manager_calls (trace mw)
    /\ manager_state mw' = manager_state mw
    /\ main C S L M F LOGFILE args env_dict mw
       = (if negb valid then top_ret M tt
          else
            top_bind M (call_prolog M (_check_hil_command C M env_dict))
              (fun hil_cmd =>
                 if negb (match hil_cmd with
                          | Some cmd => truthy cmd
                          | None => false
                          end)
                 then top_ret M tt
                 else if hil_prolog args then
                   if match hil_cmd with
                      | Some cmd => String.eqb cmd "hil_reserve"
                      | None => false
                      end
                   then
                     top_bind M (record M (Log_separator INFO "HIL Slurmctld Prolog"))
                       (fun _ =>
                          top_bind M
                            (call_prolog M (log_debug "Processing reservation request"))
                            (fun _ =>
                               call_prolog M
                                 (_hil_reserve_cmd C S L M env_dict pdata_dict
                                    jobdata_dict)))
                   else top_ret M tt
                 else if hil_epilog args then
                   if match hil_cmd with
                      | Some cmd => String.eqb cmd "hil_release"
                      | None => false
                      end
                   then
                     top_bind M
                       (call_prolog M
                          (log_debug "Processing reservation release request"))
                       (fun _ =>
                          call_prolog M
                            (_hil_release_cmd C M env_dict pdata_dict jobdata_dict))
                   else top_ret M tt
                 else top_ret M tt)) mw'.
Proof.
  intros Hflag Hpartition Hjob Hpdata Hjobdata Hvalid.
  destruct (log_only_frame _ (Build_world M [] (manager_state mw))
              (partition_check_log_only S M env_dict pdata_dict)) as [Hcalls Hmgr].
  eexists. split; [|split]; cycle 2.
  - rewrite (main_with_flag _ _ _ Hflag). unfold main_process.
    rewrite run_fetch_partition. cbn [manager_state trace].
    rewrite Hpartition, run_first_item, run_fetch_job. cbn [manager_state trace].
    rewrite Hjob, run_first_item, Hpdata, Hjobdata, as_dict_nonempty. cbn [negb orb].
    rewrite run_call_prolog. cbv zeta. cbn [manager_state trace].
    rewrite Hvalid. reflexivity.
  - cbn [trace]. rewrite !manager_calls_app, manager_calls_prolog, Hcalls. cbn.
    now rewrite !app_nil_r.
  - cbn [manager_state]. exact Hmgr.
Qed.

(** A partition the validator rejects ends [main] quietly: it returns
    without looking at the command, and the manager is not called. *)
Theorem main_with_invalid_partition_returns
  (args : arguments) (env_dict : environment) (mw : main_world M)
  (pdata_dict jobdata_dict : dict) (more_partitions more_jobs : list dict) :
  hil_prolog args = true \/ hil_epilog args = true ->
  get_partition_data F (partition env_dict) (manager_state mw)
  = pdata_dict :: more_partitions ->
  get_job_data F (job_id env_dict) (manager_state mw) = jobdata_dict :: more_jobs ->
  nonempty pdata_dict = true ->
  nonempty jobdata_dict = true ->
  fst (_check_hil_partition S M env_dict pdata_dict (Build_world M [] (manager_state mw)))
  = Ok false ->
  let run := main C S L M F LOGFILE args env_dict mw in
  fst run = Returned tt
  /\ manager_calls (trace (snd run)) = manager_calls (trace mw)
  /\ manager_state (snd run) = manager_state mw.
Proof.
  intros Hflag Hpartition Hjob Hpdata Hjobdata Hvalid. cbv zeta.
  destruct (main_to_validation args env_dict mw _ _ _ _ _ Hflag Hpartition Hjob
              Hpdata Hjobdata Hvalid) as (mw' & Hcalls & Hstate & ->).
  cbn [negb]. unfold top_ret. cbn [fst snd]. auto.
Qed.

(** As the prolog of a job named [hil_reserve], in a valid partition
    and with [hil_reserve] among the recognised commands, [main] runs
    the reserve command: it ends as the command ends (an exception of
    the command is not caught), and its calls to the manager are those
    of the command. *)
Theorem main_as_prolog_runs_reserve_command
  (args : arguments) (env_dict : environment) (mw : main_world M)
  (pdata_dict jobdata_dict : dict) (more_partitions more_jobs : list dict) :
  hil_prolog args = true ->
  get_partition_data F (partition env_dict) (manager_state mw)
  = pdata_dict :: more_partitions ->
  get_job_data F (job_id env_dict) (manager_state mw) = jobdata_dict :: more_jobs ->
  nonempty pdata_dict = true ->
  nonempty jobdata_dict = true ->
  fst (_check_hil_partition S M env_dict pdata_dict (Build_world M [] (manager_state mw)))
  = Ok true ->
  jobname env_dict = "hil_reserve" ->
  in_list "hil_reserve" (HIL_RESERVATION_COMMANDS C) = true ->
  let run := main C S L M F LOGFILE args env_dict mw in
  let command :=
    _hil_reserve_cmd C S L M env_dict pdata_dict jobdata_dict
      (Build_world M [] (manager_state mw)) in
  fst run = outcome_of (fst command)
  /\ manager_calls (trace (snd run))
     = (manager_calls (trace mw) ++ calls (events (snd command)))%list
  /\ manager_state (snd run) = mgr (snd command).
Proof.
  intros Hprolog Hpartition Hjob Hpdata Hjobdata Hvalid Hname Hcommand. cbv zeta.
  destruct (main_to_validation args env_dict mw _ _ _ _ _ (or_introl Hprolog)
              Hpartition Hjob Hpdata Hjobdata Hvalid) as (mw' & Hcalls & Hstate & ->).
  cbn [negb]. rewrite run_call_prolog. cbv zeta.
  unfold _check_hil_command. cbv zeta. rewrite Hname, Hcommand.
  unfold ret. cbn [fst snd events mgr map].
  change (truthy "hil_reserve") with true. cbn [negb].
  rewrite Hprolog, String.eqb_refl. rewrite run_record, run_call_prolog. cbv zeta.
  unfold log_debug, log. cbn [fst snd events mgr emit app map trace manager_state].
  rewrite call_prolog_run. cbn [fst snd trace manager_state].
  rewrite Hstate. repeat split.
  rewrite !manager_calls_app, manager_calls_prolog, Hcalls. cbn.
  now rewrite !app_nil_r.
Qed.

(** As the epilog of a job named [hil_release] that has a reservation
    attached, in a valid partition and with [hil_release] among the
    recognised commands, [main] ends with the uncaught [NameError] of
    the release command; the manager is not called. *)
Theorem main_as_epilog_ends_with_NameError
  (args : arguments) (env_dict : environment) (mw : main_world M)
  (pdata_dict jobdata_dict : dict) (more_partitions more_jobs : list dict)
  (reserve_resname : string) :
  hil_prolog args = false ->
  hil_epilog args = true ->
  get_partition_data F (partition env_dict) (manager_state mw)
  = pdata_dict :: more_partitions ->
  get_job_data F (job_id env_dict) (manager_state mw) = jobdata_dict :: more_jobs ->
  nonempty pdata_dict = true ->
  fst (_check_hil_partition S M env_dict pdata_dict (Build_world M [] (manager_state mw)))
  = Ok true ->
  jobname env_dict = "hil_release" ->
  in_list "hil_release" (HIL_RESERVATION_COMMANDS C) = true ->
  jobdata_dict !! "Reservation" = Some reserve_resname ->
  truthy reserve_resname = true ->
  let run := main C S L M F LOGFILE args env_dict mw in
  fst run = Uncaught (Raised (NameError "resname"))
  /\ manager_calls (trace (snd run)) = manager_calls (trace mw)
  /\ manager_state (snd run) = manager_state mw.
Proof.
  intros Hprolog Hepilog Hpartition Hjob Hpdata Hvalid Hname Hcommand Hres Hset.
  cbv zeta.
  assert (Hjobdata : nonempty jobdata_dict = true).
  { unfold nonempty. destruct (size jobdata_dict) eqn:Hsize; [|reflexivity].
    apply map_size_empty_iff in Hsize. subst jobdata_dict.
    rewrite lookup_empty in Hres. discriminate Hres. }
  destruct (main_to_validation args env_dict mw _ _ _ _ _ (or_intror Hepilog)
              Hpartition Hjob Hpdata Hjobdata Hvalid) as (mw' & Hcalls & Hstate & ->).
  cbn [negb]. rewrite run_call_prolog. cbv zeta.
  unfold _check_hil_command. cbv zeta. rewrite Hname, Hcommand.
  unfold ret. cbn [fst snd events mgr map].
  change (truthy "hil_release") with true. cbn [negb].
  rewrite Hprolog, Hepilog, String.eqb_refl. rewrite run_call_prolog. cbv zeta.
  unfold log_debug, log. cbn [fst snd events mgr emit app map trace manager_state].
  rewrite call_prolog_run. cbn [fst snd trace manager_state].
  rewrite (release_reads_unbound_resname C M _ _ _ _ _ Hres Hset).
  cbn [fst snd outcome_of events mgr map]. repeat split.
  - rewrite !manager_calls_app, Hcalls. cbn. now rewrite !app_nil_r.
  - exact Hstate.
Qed.

End Entry_runs.

(** ** Further runs of the sample configuration *)

Lemma window_returned_on_two_paths_only_witness :
  exists t_job_start_s t_job_end_s t_start_dt,
    Sample.job "Unknown" "UNLIMITED" !! "StartTime" = Some t_job_start_s
    /\ Sample.job "Unknown" "UNLIMITED" !! "EndTime" = Some t_job_end_s
    /\ Sample.sample_strptime t_job_start_s Sample.ISO_FMT = Some t_start_dt
    /\ Sample.sample_strftime t_start_dt Sample.ISO_FMT = Some "2017-05-01T10:00:00"
    /\ ((contains "Unknown" t_job_end_s = false
         /\ exists t_end_dt,
             Sample.sample_strptime t_job_end_s Sample.ISO_FMT = Some t_end_dt
             /\ Sample.sample_strftime (t_end_dt + 600) Sample.ISO_FMT
                = Some "2017-05-01T11:00:00")
        \/ (contains "Unknown" t_job_end_s = true
            /\ (exists time_limit,
                   Sample.job "Unknown" "UNLIMITED" !! "TimeLimit" = Some time_limit
                   /\ contains "UNLIMITED" time_limit = true)
            /\ (exists p_max_time_s,
                   Sample.hil_part1 !! "MaxTime" = Some p_max_time_s
                   /\ contains "UNLIMITED" p_max_time_s = true)
            /\ Sample.sample_strftime (t_start_dt + 3600) Sample.ISO_FMT
               = Some "2017-05-01T11:00:00")).
Proof.
  refine (window_returned_on_two_paths_only Sample.consts Sample.setts Sample.lib
            Sample.scripted Sample.alice Sample.hil_part1
            (Sample.job "Unknown" "UNLIMITED") (Sample.start [])
            "2017-05-01T10:00:00" "2017-05-01T11:00:00" _).
  by_run.
Defined.

Lemma window_rejects_incomplete_job_record_witness :
  _get_hil_reservation_times Sample.consts Sample.setts Sample.lib Sample.scripted
    Sample.alice Sample.hil_part1 (list_to_map [("JobName", "hil_reserve")])
    (Sample.start [])
  = (Raise (KeyError "StartTime"), Sample.start []).
Proof.
  refine (proj1 (window_rejects_incomplete_job_record Sample.consts Sample.setts
                   Sample.lib Sample.scripted Sample.alice Sample.hil_part1
                   (list_to_map [("JobName", "hil_reserve")]) (Sample.start [])) _).
  by_run.
Defined.

(** A job with a finite time limit has no window: the reserve command
    ends before the manager is asked anything. *)
Lemma reserve_without_window_calls_nothing_witness :
  let run :=
    _hil_reserve_cmd Sample.consts Sample.setts Sample.lib Sample.scripted Sample.alice
      Sample.hil_part1 (Sample.job "Unknown" "01:00:00")
      (Sample.start [Sample.no_reply]) in
  fst run = Raise (UnboundLocalError "t_end_dt")
  /\ calls (events (snd run)) = []
  /\ mgr (snd run) = [Sample.no_reply].
Proof.
  refine (reserve_without_window_calls_nothing Sample.consts Sample.setts Sample.lib
            Sample.scripted Sample.alice Sample.hil_part1
            (Sample.job "Unknown" "01:00:00") (Sample.start [Sample.no_reply])
            (UnboundLocalError "t_end_dt") _).
  by_run.
Defined.

(** The reserve reservation is reported as present (the query fails
    for another reason than "not found"), the release reservation is
    not: one query, then a query and a creation. *)
Lemma reserve_calls_witness :
  let run :=
    _hil_reserve_cmd Sample.consts Sample.setts Sample.lib Sample.scripted Sample.alice
      Sample.hil_part1 (Sample.job "Unknown" "UNLIMITED")
      (Sample.start
         [Sample.failure "Unable to contact slurm controller";
          Sample.not_found "flexalloc_MOC_release_alice_1000_2017-05-01T10:00:00";
          Sample.failure "Error creating the reservation"]) in
  fst run = Ok tt
  /\ calls (events (snd run))
     = [query "flexalloc_MOC_reserve_alice_1000_2017-05-01T10:00:00";
        query "flexalloc_MOC_release_alice_1000_2017-05-01T10:00:00";
        creation Sample.consts "flexalloc_MOC_release_alice_1000_2017-05-01T10:00:00"
          Sample.alice "2017-05-01T10:00:00" "2017-05-01T11:00:00"]
  /\ mgr (snd run) = [].
Proof.
  refine (reserve_calls Sample.consts Sample.setts Sample.lib Sample.scripted
            Sample.alice Sample.hil_part1 (Sample.job "Unknown" "UNLIMITED")
            (Sample.start
               [Sample.failure "Unable to contact slurm controller";
                Sample.not_found "flexalloc_MOC_release_alice_1000_2017-05-01T10:00:00";
                Sample.failure "Error creating the reservation"])
            "2017-05-01T10:00:00" "2017-05-01T11:00:00" _).
  by_run.
Defined.


Lemma main_without_record_raises_IndexError_witness :
  main Sample.consts Sample.setts Sample.lib Sample.scripted (Sample.shows [] [])
    Sample.LOGFILE Sample.as_prolog Sample.alice (Sample.boot [])
  = (Uncaught IndexError,
     Build_main_world Sample.scripted
       [Log_init "hil_slurmctld.prolog" Sample.LOGFILE DEBUG;
        Got_partition_data "hil_part1" []]
       []).
Proof.
  refine (proj1 (main_without_record_raises_IndexError Sample.consts Sample.setts
                   Sample.lib Sample.scripted (Sample.shows [] []) Sample.LOGFILE
                   Sample.as_prolog Sample.alice (Sample.boot []) _) _).
  - left. reflexivity.
  - reflexivity.
Defined.

Lemma main_with_empty_record_returns_witness :
  fst (main Sample.consts Sample.setts Sample.lib Sample.scripted
         (Sample.shows [Sample.hil_part1] [∅]) Sample.LOGFILE Sample.as_prolog
         Sample.alice (Sample.boot []))
  = Returned tt.
Proof.
  refine (f_equal fst
            (main_with_empty_record_returns Sample.consts Sample.setts Sample.lib
               Sample.scripted (Sample.shows [Sample.hil_part1] [∅]) Sample.LOGFILE
               Sample.as_prolog Sample.alice (Sample.boot []) Sample.hil_part1 ∅ [] []
               _ _ _ _)).
  - left. reflexivity.
  - reflexivity.
  - reflexivity.
  - right. reflexivity.
Defined.

(** The partition [general] fails every check. *)
Lemma main_with_invalid_partition_returns_witness :
  let run :=
    main Sample.consts Sample.setts Sample.lib Sample.scripted
      (Sample.shows [Sample.general] [Sample.job "Unknown" "UNLIMITED"])
      Sample.LOGFILE Sample.as_prolog Sample.alice (Sample.boot [Sample.no_reply]) in
  fst run = Returned tt
  /\ manager_calls (trace (snd run)) = []
  /\ manager_state (snd run) = [Sample.no_reply].
Proof.
  refine (main_with_invalid_partition_returns Sample.consts Sample.setts Sample.lib
            Sample.scripted
            (Sample.shows [Sample.general] [Sample.job "Unknown" "UNLIMITED"])
            Sample.LOGFILE Sample.as_prolog Sample.alice (Sample.boot [Sample.no_reply])
            Sample.general (Sample.job "Unknown" "UNLIMITED") [] [] _ _ _ _ _ _).
  - left. reflexivity.
  - reflexivity.
  - reflexivity.
  - by_run.
  - by_run.
  - by_run.
Defined.

Lemma main_as_prolog_runs_reserve_command_witness :
  let run :=
    main Sample.consts Sample.setts Sample.lib Sample.scripted
      (Sample.shows [Sample.hil_part1] [Sample.job "Unknown" "UNLIMITED"])
      Sample.LOGFILE Sample.as_prolog Sample.alice
      (Sample.boot
         [Sample.not_found "flexalloc_MOC_reserve_alice_1000_2017-05-01T10:00:00";
          Sample.no_reply;
          Sample.not_found "flexalloc_MOC_release_alice_1000_2017-05-01T10:00:00";
          Sample.no_reply]) in
  fst run = Returned tt
  /\ manager_calls (trace (snd run))
     = [query "flexalloc_MOC_reserve_alice_1000_2017-05-01T10:00:00";
        creation Sample.consts "flexalloc_MOC_reserve_alice_1000_2017-05-01T10:00:00"
          Sample.alice "2017-05-01T10:00:00" "2017-05-01T11:00:00";
        query "flexalloc_MOC_release_alice_1000_2017-05-01T10:00:00";
        creation Sample.consts "flexalloc_MOC_release_alice_1000_2017-05-01T10:00:00"
          Sample.alice "2017-05-01T10:00:00" "2017-05-01T11:00:00"]
  /\ manager_state (snd run) = [].
Proof.
  cbv zeta.
  destruct (main_as_prolog_runs_reserve_command Sample.consts Sample.setts Sample.lib
              Sample.scripted
              (Sample.shows [Sample.hil_part1] [Sample.job "Unknown" "UNLIMITED"])
              Sample.LOGFILE Sample.as_prolog Sample.alice
              (Sample.boot
                 [Sample.not_found "flexalloc_MOC_reserve_alice_1000_2017-05-01T10:00:00";
                  Sample.no_reply;
                  Sample.not_found "flexalloc_MOC_release_alice_1000_2017-05-01T10:00:00";
                  Sample.no_reply])
              Sample.hil_part1 (Sample.job "Unknown" "UNLIMITED") [] []
              ltac:(reflexivity) ltac:(reflexivity) ltac:(reflexivity)
              ltac:(by_run) ltac:(by_run) ltac:(by_run) ltac:(reflexivity)
              ltac:(by_run))
    as (Hresult & Hcalls & Hstate).
  rewrite Hresult, Hcalls, Hstate. split; [|split]; by_run.
Defined.

Lemma main_as_epilog_ends_with_NameError_witness :
  let run :=
    main Sample.consts Sample.setts Sample.lib Sample.scripted
      (Sample.shows [Sample.hil_part1]
         [Sample.release_job "flexalloc_MOC_reserve_bob_1001_2017-05-01T10:00:00"])
      Sample.LOGFILE Sample.as_epilog Sample.bob (Sample.boot [Sample.no_reply]) in
  fst run = Uncaught (Raised (NameError "resname"))
  /\ manager_calls (trace (snd run)) = []
  /\ manager_state (snd run) = [Sample.no_reply].
Proof.
  refine (main_as_epilog_ends_with_NameError Sample.consts Sample.setts Sample.lib
            Sample.scripted
            (Sample.shows [Sample.hil_part1]
               [Sample.release_job "flexalloc_MOC_reserve_bob_1001_2017-05-01T10:00:00"])
            Sample.LOGFILE Sample.as_epilog Sample.bob (Sample.boot [Sample.no_reply])
            Sample.hil_part1
            (Sample.release_job "flexalloc_MOC_reserve_bob_1001_2017-05-01T10:00:00")
            [] [] "flexalloc_MOC_reserve_bob_1001_2017-05-01T10:00:00"
            _ _ _ _ _ _ _ _ _ _).
  all: by_run.
Defined.
